(** * fnrun-runner: the source -> invoke -> sink bridge of [main.go]

    A shallow embedding of [main.go] (package [main] of
    tessellator/fnrun-runner) and the properties of its sink invoker, its
    plugin resolution, its pool configuration and its [run] procedure.

    The Go program talks to four foreign packages: [os] (environment),
    [plugin] (loading of shared objects), [executil] (command parsing) and
    [fnrun] (the invoker pool).  Their functions are taken as a record of
    functions over an opaque world [W]; the program itself runs in a state
    monad over that world together with a journal of the foreign calls it
    makes. *)

From stdpp Require Import gmap strings list.
From Stdlib Require Import ZArith Lia Ascii.

Local Open Scope string_scope.
Local Open Scope Z_scope.
Local Open Scope list_scope.

(** ** Go values *)

(** A Go [error] value: [nil] is [None]; a non-nil error is known by its
    message ([errors.New], [fmt.Errorf] and every foreign error alike). *)
Inductive GoError : Type :=
| errorString (msg : string).

Definition error : Type := option GoError.

Definition Error (e : GoError) : string :=
  match e with errorString msg => msg end.

(** [errors.New(msg)] *)
Definition errors_New (msg : string) : GoError := errorString msg.

(** [fmt.Errorf("Symbol %s could not be found in %s", symbolName, path)]:
    the only format string of the program, with its two [%s] verbs. *)
Definition fmt_Errorf_symbol (symbolName path : string) : GoError :=
  errorString ("Symbol " +:+ symbolName +:+ " could not be found in " +:+ path).

(** A pointer that may be [nil]. *)
Definition ptr (A : Type) : Type := option A.

(** ** [context.Context]

    The program only ever creates [context.Background()]; the derived
    contexts are what a caller of [Invoke] may hand in. *)
Inductive Context : Type :=
| Background
| WithCancel (parent : Context)
| WithDeadline (parent : Context) (d : Z)
| WithValue (parent : Context) (key val : string).

(** [ctx.Deadline()]: the earliest deadline on the chain, if any. *)
Fixpoint Deadline (ctx : Context) : option Z :=
  match ctx with
  | Background => None
  | WithCancel parent => Deadline parent
  | WithDeadline parent d =>
      match Deadline parent with
      | Some d' => Some (Z.min d d')
      | None => Some d
      end
  | WithValue parent _ _ => Deadline parent
  end.

(** [ctx.Done() != nil]: somebody holds a way to cancel the context. *)
Fixpoint Done (ctx : Context) : bool :=
  match ctx with
  | Background => false
  | WithCancel _ => true
  | WithDeadline _ _ => true
  | WithValue parent _ _ => Done parent
  end.

(** ** [os.Getenv] and [os.Environ] *)

Definition Getenv (env : gmap string string) (key : string) : string :=
  default "" (env !! key).

Definition Environ (env : gmap string string) : list string :=
  (fun kv => fst kv +:+ "=" +:+ snd kv) <$> map_to_list env.

(** ** [strconv.Atoi], for a 64-bit [int] *)

Definition intSize : Z := 64.
Definition maxInt : Z := 2 ^ (intSize - 1) - 1.
Definition minInt : Z := - 2 ^ (intSize - 1).

(** Two's complement wrap-around of an [int64] result. *)
Definition wrap64 (z : Z) : Z :=
  (z + 2 ^ 63) mod 2 ^ 64 - 2 ^ 63.

Definition digit_of (c : ascii) : option Z :=
  let n := Z.of_nat (nat_of_ascii c) in
  if (48 <=? n) && (n <=? 57) then Some (n - 48) else None.

(** The digits of [s] read in base ten onto [acc]; [None] at the first
    byte that is not a digit. *)
Fixpoint parse_digits (s : string) (acc : Z) : option Z :=
  match s with
  | EmptyString => Some acc
  | String c rest =>
      match digit_of c with
      | Some d => parse_digits rest (acc * 10 + d)
      | None => None
      end
  end.

(** The unsigned part: at least one digit. *)
Definition parse_unsigned (s : string) : option Z :=
  match s with
  | EmptyString => None
  | _ => parse_digits s 0
  end.

(** [strconv.Atoi(s)]: [Some i] when [err == nil].  An optional sign, then
    decimal digits only; a value outside the range of [int] is an error. *)
Definition Atoi (s : string) : option Z :=
  match s with
  | EmptyString => None
  | String c rest =>
      let signed :=
        if Ascii.eqb c "-"%char then Z.opp <$> parse_unsigned rest
        else if Ascii.eqb c "+"%char then parse_unsigned rest
        else parse_unsigned s in
      match signed with
      | Some n => if (minInt <=? n) && (n <=? maxInt) then Some n else None
      | None => None
      end
  end.

(** ** [time.Duration] *)

(** [time.Millisecond], in nanoseconds. *)
Definition Millisecond : Z := 1000000.

(** [time.Duration(n) * time.Millisecond], an [int64] product. *)
Definition millis (n : Z) : Z := wrap64 (n * Millisecond).

(** ** [exec.Cmd] and the pool configuration of [fnrun] *)

Record Cmd : Type := mkCmd {
  Path : string;
  Args : list string;
  Env : list string
}.

(** [cmd.Env = env] *)
Definition set_Env (cmd : Cmd) (env : list string) : Cmd :=
  {| Path := Path cmd; Args := Args cmd; Env := env |}.

(** The value of [fnrun.NewCmdInvokerFactory(cmd)]. *)
Inductive InvokerFactory : Type :=
| NewCmdInvokerFactory (cmd : Cmd).

Record InvokerPoolConfig : Type := mkConfig {
  MaxInvokerCount : Z;
  Factory : InvokerFactory;
  MaxWaitDuration : Z;
  MaxRunnableTime : Z
}.

(** [*plugin.Plugin] *)
Record Plugin : Type := mkPlugin {
  pluginpath : string
}.

(** ** The program state and its monad *)

Section Model.

(** [W] is the world the foreign code acts on; [Input] and [Result] stand
    for [fnrun.Input] and [fnrun.Result]. *)
Variables (W Input Result : Type).

(** The foreign calls the program makes, in the order it makes them. *)
Inductive Event : Type :=
| EvParseCmd (line : string)
| EvNewInvokerPool (config : InvokerPoolConfig)
| EvOpen (path : string)
| EvLookup (p : Plugin) (symbolName : string)
| EvSource (ctx : Context)
| EvInvoke (ctx : Context) (input : ptr Input)
| EvSink (ctx : Context) (result : ptr Result).

Record State : Type := mkState {
  world : W;
  journal : list Event
}.

Definition M (A : Type) : Type := State -> A * State.

Definition ret {A : Type} (a : A) : M A := fun s => (a, s).

Definition bind {A B : Type} (m : M A) (k : A -> M B) : M B :=
  fun s => let (a, s') := m s in k a s'.

Definition record (ev : Event) (s : State) : State :=
  {| world := world s; journal := journal s ++ [ev] |}.

(** A call of foreign code that sees the world only. *)
Definition foreign {A : Type} (ev : Event) (f : W -> A * W) : M A :=
  fun s => let (a, w) := f (world s) in
           (a, {| world := w; journal := journal s ++ [ev] |}).

(** ** Type aliases and the [fnrun.Invoker] interface *)

(** [fnrun.Invoker]: the one method [Invoke], over a state [S]. *)
Record Invoker (S : Type) : Type := mkInvoker {
  Invoke : Context -> ptr Input -> S -> (ptr Result * error) * S
}.

(** [type eventSource func(ctx context.Context, invoker fnrun.Invoker) error]:
    the source is handed an invoker of this program, so it runs over the
    program state. *)
Definition eventSource : Type :=
  Context -> Invoker State -> State -> error * State.

(** [type eventSink func(ctx context.Context, result *fnrun.Result) error] *)
Definition eventSink : Type :=
  Context -> ptr Result -> W -> error * W.

(** ** Sink Invoker *)

(** [type sinkInvoker struct]; a [nil] sink is [None]. *)
Record sinkInvoker : Type := mkSinkInvoker {
  invoker : Invoker W;
  sink : option eventSink
}.

(** ** Plugins *)

(** A [plugin.Symbol] is a value of any type.  What matters to the program
    is its dynamic type: identical to one of the two function types it
    asserts, or any other type, kept by its name. *)
Inductive Symbol : Type :=
| FuncSource (f : eventSource)
| FuncSink (f : eventSink)
| OtherSymbol (goType : string).

(** [symSource.(func(context.Context, fnrun.Invoker) error)]: the value
    and [ok] in one option. *)
Definition assert_source (sym : Symbol) : option eventSource :=
  match sym with
  | FuncSource f => Some f
  | _ => None
  end.

(** [symSink.(func(ctx context.Context, result *fnrun.Result) error)] *)
Definition assert_sink (sym : Symbol) : option eventSink :=
  match sym with
  | FuncSink f => Some f
  | _ => None
  end.

(** ** The foreign functions

    Each returns its value or its non-nil error, and the world after it. *)
Record Externals : Type := mkExternals {
  (** [executil.ParseCmd] *)
  ParseCmd : string -> W -> (Cmd + GoError) * W;
  (** [fnrun.NewInvokerPool] *)
  NewInvokerPool : InvokerPoolConfig -> W -> (Invoker W + GoError) * W;
  (** [plugin.Open] *)
  plugin_Open : string -> W -> (Plugin + GoError) * W;
  (** the method [Lookup] of [plugin.Plugin] *)
  plugin_Lookup : Plugin -> string -> W -> (Symbol + GoError) * W
}.

End Model.

Arguments EvParseCmd {Input Result} line.
Arguments EvNewInvokerPool {Input Result} config.
Arguments EvOpen {Input Result} path.
Arguments EvLookup {Input Result} p symbolName.
Arguments EvSource {Input Result} ctx.
Arguments EvInvoke {Input Result} ctx input.
Arguments EvSink {Input Result} ctx result.
Arguments mkState {W Input Result} world journal.
Arguments world {W Input Result} s.
Arguments journal {W Input Result} s.
Arguments ret {W Input Result A} a s.
Arguments bind {W Input Result A B} m k s.
Arguments record {W Input Result} ev s.
Arguments foreign {W Input Result A} ev f s.
Arguments mkInvoker {Input Result S} Invoke.
Arguments Invoke {Input Result S} i ctx input s.
Arguments mkSinkInvoker {W Input Result} invoker sink.
Arguments invoker {W Input Result} s.
Arguments sink {W Input Result} s.
Arguments FuncSource {W Input Result} f.
Arguments FuncSink {W Input Result} f.
Arguments OtherSymbol {W Input Result} goType.
Arguments assert_source {W Input Result} sym.
Arguments assert_sink {W Input Result} sym.
Arguments mkExternals {W Input Result} ParseCmd NewInvokerPool plugin_Open plugin_Lookup.
Arguments ParseCmd {W Input Result} e line w.
Arguments NewInvokerPool {W Input Result} e config w.
Arguments plugin_Open {W Input Result} e path w.
Arguments plugin_Lookup {W Input Result} e p symbolName w.

Declare Scope go_scope.
Delimit Scope go_scope with go.
Notation "x <- c ;; k" := (bind c (fun x => k))
(at level 100, c at next level, right associativity) : go_scope.

Section Program.

Context {W Input Result : Type}.

Local Abbreviation State := (State W Input Result).
Local Abbreviation M := (M W Input Result).
Local Abbreviation eventSource := (eventSource W Input Result).
Local Abbreviation eventSink := (eventSink W Result).
Local Abbreviation sinkInvoker := (sinkInvoker W Input Result).

(** [func (si *sinkInvoker) Invoke(ctx, input)], returning a [*fnrun.Result]
    and an [error]. *)
Definition sinkInvoker_Invoke (si : sinkInvoker) (ctx : Context)
    (input : ptr Input) : M (ptr Result * error) :=
  (r <- foreign (EvInvoke ctx input) (Invoke (invoker si) ctx input) ;;
   let '(result, err) := r in
   match err with
   | Some _ => ret (result, err)
   | None =>
       match sink si with
       | None => ret (result, err)
       | Some sink =>
           newErr <- foreign (EvSink ctx result) (sink ctx result) ;;
           match newErr with
           | Some _ => ret (result, newErr)
           | None => ret (result, err)
           end
       end
   end)%go.

(** [&sinkInvoker{...}] seen through the interface [fnrun.Invoker]. *)
Definition as_Invoker (si : sinkInvoker) : Invoker Input Result State :=
  mkInvoker (sinkInvoker_Invoke si).

(** ** Main application *)

Variable ext : Externals W Input Result.
Variable env : gmap string string.

(** [func getEventSource() (eventSource, error)]: every [return] gives
    either a source and a nil error, or a nil source and a non-nil error. *)
Definition getEventSource : M (eventSource + GoError) :=
  (let path := Getenv env "SOURCE_PLUGIN_PATH" in
   if String.eqb path "" then
     ret (inr (errors_New "SOURCE_PLUGIN_PATH is a required environment variable"))
   else
     r <- foreign (EvOpen path) (plugin_Open ext path) ;;
     match r with
     | inr err => ret (inr err)
     | inl p =>
         let symbolName := Getenv env "SOURCE_PLUGIN_SYMBOL" in
         if String.eqb symbolName "" then
           ret (inr (errors_New "SOURCE_PLUGIN_SYMBOL is a required environment variable"))
         else
           r <- foreign (EvLookup p symbolName) (plugin_Lookup ext p symbolName) ;;
           match r with
           | inr err => ret (inr err)
           | inl symSource =>
               match assert_source symSource with
               | None => ret (inr (fmt_Errorf_symbol symbolName path))
               | Some source => ret (inl source)
               end
           end
     end)%go.

(** [func getEventSink() (eventSink, error)]: a sink or [nil] with a nil
    error ([inl]), or [nil] with a non-nil error ([inr]). *)
Definition getEventSink : M (option eventSink + GoError) :=
  (let path := Getenv env "SINK_PLUGIN_PATH" in
   if String.eqb path "" then
     ret (inl None)
   else
     r <- foreign (EvOpen path) (plugin_Open ext path) ;;
     match r with
     | inr err => ret (inr err)
     | inl p =>
         let symbolName := Getenv env "SINK_PLUGIN_SYMBOL" in
         if String.eqb symbolName "" then
           ret (inr (errors_New
             "SINK_PLUGIN_SYMBOL is required when a SINK_PLUGIN_PATH is provided"))
         else
           r <- foreign (EvLookup p symbolName) (plugin_Lookup ext p symbolName) ;;
           match r with
           | inr err => ret (inr err)
           | inl symSink =>
               match assert_sink symSink with
               | None => ret (inr (fmt_Errorf_symbol symbolName path))
               | Some sink => ret (inl (Some sink))
               end
           end
     end)%go.

(** The straight-line part of [getInvoker] between [ParseCmd] and
    [NewInvokerPool] (lines 118 to 152): it reads the environment and has
    no other effect. *)
Definition poolConfig (cmd : Cmd) : InvokerPoolConfig :=
  let cmd := set_Env cmd (Environ env) in
  let maxFuncCount := 8 in
  let maxFuncCountStr := Getenv env "MAX_FUNCTION_COUNT" in
  let maxFuncCount :=
    if negb (String.eqb maxFuncCountStr "") then
      match Atoi maxFuncCountStr with
      | Some i => i
      | None => maxFuncCount
      end
    else maxFuncCount in
  let maxWaitMillis := 500 in
  let maxWaitMillisStr := Getenv env "MAX_WAIT_MILLIS" in
  let maxWaitMillis :=
    if negb (String.eqb maxWaitMillisStr "") then
      match Atoi maxWaitMillisStr with
      | Some i => i
      | None => maxWaitMillis
      end
    else maxWaitMillis in
  let maxExecMillis := 30000 in
  let maxExecMillisStr := Getenv env "MAX_EXEC_MILLIS" in
  let maxExecMillis :=
    if negb (String.eqb maxExecMillisStr "") then
      match Atoi maxExecMillisStr with
      | Some i => i
      | None => maxExecMillis
      end
    else maxExecMillis in
  {| MaxInvokerCount := maxFuncCount;
     Factory := NewCmdInvokerFactory cmd;
     MaxWaitDuration := millis maxWaitMillis;
     MaxRunnableTime := millis maxExecMillis |}.

(** [func getInvoker() (fnrun.Invoker, error)] *)
Definition getInvoker : M (Invoker Input Result W + GoError) :=
  (let line := Getenv env "FUNCTION_COMMAND" in
   r <- foreign (EvParseCmd line) (ParseCmd ext line) ;;
   match r with
   | inr err => ret (inr err)
   | inl cmd =>
       let config := poolConfig cmd in
       r <- foreign (EvNewInvokerPool config) (NewInvokerPool ext config) ;;
       match r with
       | inr err => ret (inr err)
       | inl pool => ret (inl pool)
       end
   end)%go.

(** The call [eventSource(ctx, invoker)] of the last line of [run]. *)
Definition call_source (source : eventSource) (ctx : Context)
    (inv : Invoker Input Result State) : M error :=
  fun s => source ctx inv (record (EvSource ctx) s).

(** [func run() error] *)
Definition run : M error :=
  (r <- getInvoker ;;
   match r with
   | inr err => ret (Some err)
   | inl invoker =>
       r <- getEventSource ;;
       match r with
       | inr err => ret (Some err)
       | inl eventSource =>
           r <- getEventSink ;;
           match r with
           | inr err => ret (Some err)
           | inl eventSink =>
               call_source eventSource Background
                 (as_Invoker (mkSinkInvoker invoker eventSink))
           end
       end
   end)%go.

(** How the process leaves [main]: by returning, or by [panic(err)]. *)
Inductive Exit : Type :=
| Returned
| Panicked (v : GoError).

(** [func main()] *)
Definition main : M Exit :=
  (err <- run ;;
   match err with
   | Some e => ret (Panicked e)
   | None => ret Returned
   end)%go.

End Program.

Arguments getEventSource {W Input Result} ext env s.
Arguments getEventSink {W Input Result} ext env s.
Arguments getInvoker {W Input Result} ext env s.
Arguments run {W Input Result} ext env s.
Arguments main {W Input Result} ext env s.

(** ** Callers of an invoker *)

(** A caller that hands the inputs to [inv] one after the other, whatever
    comes back, and collects the pairs: the use an event source makes of
    the invoker it is given. *)
Fixpoint invoke_all {Input Result S : Type} (inv : Invoker Input Result S)
    (ctx : Context) (inputs : list (ptr Input)) (s : S)
    : list (ptr Result * error) * S :=
  match inputs with
  | [] => ([], s)
  | input :: rest =>
      let '(out, s1) := Invoke inv ctx input s in
      let '(outs, s2) := invoke_all inv ctx rest s1 in
      (out :: outs, s2)
  end.

(** The pairs that carry a nil error. *)
Definition successes {Result : Type} (outs : list (ptr Result * error)) : nat :=
  length (filter (fun out => bool_decide (snd out = None)) outs).

(** ** Journal measures *)

Section Journal.

Context {Input Result : Type}.

Local Abbreviation Event := (Event Input Result).

(** The events of building the pool and resolving the plugins. *)
Definition is_setup (ev : Event) : bool :=
  match ev with
  | EvParseCmd _ | EvNewInvokerPool _ | EvOpen _ | EvLookup _ _ => true
  | EvSource _ | EvInvoke _ _ | EvSink _ _ => false
  end.

Definition is_source (ev : Event) : bool :=
  match ev with EvSource _ => true | _ => false end.

Definition is_sink (ev : Event) : bool :=
  match ev with EvSink _ _ => true | _ => false end.

(** How often the event source was called. *)
Definition source_calls (j : list Event) : nat := length (filter is_source j).

(** How often a sink was called. *)
Definition sink_calls (j : list Event) : nat := length (filter is_sink j).

Definition is_invoke (ev : Event) : bool :=
  match ev with EvInvoke _ _ => true | _ => false end.

(** How often an inner invoker was called. *)
Definition invoke_calls (j : list Event) : nat := length (filter is_invoke j).

(** The context handed over in a call that takes one. *)
Definition event_ctx (ev : Event) : option Context :=
  match ev with
  | EvSource ctx | EvInvoke ctx _ | EvSink ctx _ => Some ctx
  | _ => None
  end.

End Journal.

(** A computation that only adds setup events to the journal. *)
Definition setup_only {W Input Result A : Type} (m : M W Input Result A) : Prop :=
  forall s, exists evs,
    journal (m s).2 = journal s ++ evs /\ forallb is_setup evs = true.


(** What each of the three override blocks of [getInvoker] computes from
    the text of its variable. *)
Definition override (fallback : Z) (str : string) : Z :=
  if negb (String.eqb str "") then
    match Atoi str with
    | Some i => i
    | None => fallback
    end
  else fallback.

(** ** A small concrete installation

    The world is the list of things the foreign code did; inputs and
    results are strings. *)

Module Sample.

Definition World : Type := list string.

(** A pool whose function fails on the input [boom] and still hands back
    a partial result. *)
Definition pool : Invoker string string World :=
  mkInvoker (fun _ input w =>
    match input with
    | Some i =>
        if String.eqb i "boom" then
          ((Some "partial", Some (errorString "exit status 1")), w ++ ["run boom"])
        else ((Some "ok", None), w ++ ["run " +:+ i])
    | None => ((None, Some (errorString "nil input")), w)
    end).

Definition full_disk : eventSink World string :=
  fun _ _ w => (Some (errorString "disk full"), w ++ ["sink failed"]).

Definition publish : eventSink World string :=
  fun _ result w => (None, w ++ ["published " +:+ default "nil" result]).

(** A source with a single event. *)
Definition one_event : eventSource World string string :=
  fun ctx inv s => let '((_, err), s') := Invoke inv ctx (Some "event") s in (err, s').

Definition ext : Externals World string string :=
  {| ParseCmd line w :=
       if String.eqb line "" then (inr (errorString "empty command"), w)
       else (inl (mkCmd line [] []), w);
     NewInvokerPool config w :=
       if MaxInvokerCount config <? 0 then (inr (errorString "bad pool size"), w)
       else (inl pool, w ++ ["pool"]);
     plugin_Open path w :=
       if String.eqb path "./missing.so" then
         (inr (errorString "plugin.Open: realpath failed"), w)
       else (inl (mkPlugin path), w ++ ["open " +:+ path]);
     plugin_Lookup p name w :=
       (if String.eqb name "Source" then inl (FuncSource one_event)
        else if String.eqb name "Sink" then inl (FuncSink full_disk)
        else if String.eqb name "Publish" then inl (FuncSink publish)
        else if String.eqb name "Version" then inl (OtherSymbol "*string")
        else inr (errorString ("plugin: symbol " +:+ name +:+ " not found")), w) |}.

Definition start : State World string string := mkState [] [].

(** Source only, no sink. *)
Definition env_source : gmap string string :=
  <["FUNCTION_COMMAND" := "cat"]>
  (<["SOURCE_PLUGIN_PATH" := "./src.so"]>
  (<["SOURCE_PLUGIN_SYMBOL" := "Source"]> ∅)).

(** Source and a sink whose disk is full. *)
Definition env_sink : gmap string string :=
  <["SINK_PLUGIN_PATH" := "./sink.so"]>
  (<["SINK_PLUGIN_SYMBOL" := "Sink"]> env_source).

(** A sink path without its symbol name. *)
Definition env_partial_sink : gmap string string :=
  <["SINK_PLUGIN_PATH" := "./sink.so"]> env_source.

(** A source module that does not exist. *)
Definition env_missing_source : gmap string string :=
  <["SOURCE_PLUGIN_PATH" := "./missing.so"]> env_source.

(** A symbol that is a string variable, not a function. *)
Definition env_wrong_shape : gmap string string :=
  <["SOURCE_PLUGIN_SYMBOL" := "Version"]> env_source.

(** A negative pool size and two unparsable durations. *)
Definition env_numbers : gmap string string :=
  <["MAX_FUNCTION_COUNT" := "-3"]>
  (<["MAX_WAIT_MILLIS" := "1s"]>
  (<["MAX_EXEC_MILLIS" := "12_000"]> env_source)).

(** A shorter queue wait and an unparsable execution time. *)
Definition env_timeouts : gmap string string :=
  <["MAX_WAIT_MILLIS" := "250"]>
  (<["MAX_EXEC_MILLIS" := "soon"]> env_source).

(** A sink symbol that is a source function. *)
Definition env_sink_wrong_shape : gmap string string :=
  <["SINK_PLUGIN_PATH" := "./sink.so"]>
  (<["SINK_PLUGIN_SYMBOL" := "Source"]> env_source).

Definition cat : Cmd := mkCmd "cat" [] [].

(** A context some caller derived. *)
Definition ctx : Context := WithDeadline (WithValue Background "trace" "42") 1000.

Definition si_plain : sinkInvoker World string string := mkSinkInvoker pool None.

Definition si_full_disk : sinkInvoker World string string :=
  mkSinkInvoker pool (Some full_disk).

Definition si_publish : sinkInvoker World string string :=
  mkSinkInvoker pool (Some publish).

(** The states [run] goes through with [env_sink]. *)
Definition after_pool : State World string string :=
  mkState ["pool"] [EvParseCmd "cat"; EvNewInvokerPool (poolConfig env_sink cat)].

Definition after_source : State World string string :=
  mkState (world after_pool ++ ["open ./src.so"])
    (journal after_pool ++ [EvOpen "./src.so"; EvLookup (mkPlugin "./src.so") "Source"]).

Definition after_sink : State World string string :=
  mkState (world after_source ++ ["open ./sink.so"])
    (journal after_source ++ [EvOpen "./sink.so"; EvLookup (mkPlugin "./sink.so") "Sink"]).

(** A sink invoker around a sink invoker: the inner one is the world of
    the outer one. *)
Definition audit : eventSink (State World string string) string :=
  fun _ _ st => (None, mkState (world st ++ ["audited"]) (journal st)).

Definition si_nested_full_disk
    : sinkInvoker (State World string string) string string :=
  mkSinkInvoker (as_Invoker si_full_disk) (Some audit).

Definition si_nested_publish
    : sinkInvoker (State World string string) string string :=
  mkSinkInvoker (as_Invoker si_publish) (Some audit).

Definition outer_start : State (State World string string) string string :=
  mkState start [].

(** No command and no source. *)
Definition env_empty : gmap string string := ∅.

(** A queue wait too long for an [int64] of nanoseconds. *)
Definition env_overflow : gmap string string :=
  <["MAX_WAIT_MILLIS" := "9223372036855"]>
  (<["MAX_EXEC_MILLIS" := "60000"]> env_source).

End Sample.

(** * Properties *)

(** ** The sink invoker *)

Section SinkInvoker.

Context {W Input Result : Type}.

Local Abbreviation State := (State W Input Result).
Local Abbreviation sinkInvoker := (sinkInvoker W Input Result).

Implicit Types (si : sinkInvoker) (ctx : Context) (input : ptr Input)
  (s : State) (result : ptr Result).

(** What one call of [Invoke] does, by the outcome of its two foreign
    calls. *)
Lemma Invoke_unfold si ctx input s :
  sinkInvoker_Invoke si ctx input s =
  let '((result, err), w1) := Invoke (invoker si) ctx input (world s) in
  match err, sink si with
  | None, Some snk =>
      let '(newErr, w2) := snk ctx result w1 in
      ((result, newErr),
       mkState w2 (journal s ++ [EvInvoke ctx input; EvSink ctx result]))
  | _, _ => ((result, err), mkState w1 (journal s ++ [EvInvoke ctx input]))
  end.
Proof.
  unfold sinkInvoker_Invoke, bind, foreign, ret.
  destruct (Invoke (invoker si) ctx input (world s)) as [[result err] w1].
  destruct err as [e|]; [reflexivity|].
  destruct (sink si) as [snk|]; [|reflexivity]. simpl.
  destruct (snk ctx result w1) as [[e|] w2]; by rewrite <- app_assoc.
Qed.

Lemma sink_calls_app (j1 j2 : list (Event Input Result)) :
  sink_calls (j1 ++ j2) = (sink_calls j1 + sink_calls j2)%nat.
Proof. unfold sink_calls. by rewrite filter_app, length_app. Qed.

Lemma source_calls_app (j1 j2 : list (Event Input Result)) :
  source_calls (j1 ++ j2) = (source_calls j1 + source_calls j2)%nat.
Proof. unfold source_calls. by rewrite filter_app, length_app. Qed.

(** C1: when the inner invoker returns [(result, nil)] and the configured
    sink returns a non-nil error, [Invoke] returns that same result paired
    with the sink's error; the sink ran once, after the invoker, on the
    invoker's result. *)
Theorem sink_error_keeps_result si snk ctx input s result w1 e w2 :
  Invoke (invoker si) ctx input (world s) = ((result, None), w1) ->
  sink si = Some snk ->
  snk ctx result w1 = (Some e, w2) ->
  sinkInvoker_Invoke si ctx input s =
    ((result, Some e),
     mkState w2 (journal s ++ [EvInvoke ctx input; EvSink ctx result])).
Proof.
  intros Hinv Hsink Hsnk. rewrite Invoke_unfold, Hinv, Hsink, Hsnk. reflexivity.
Qed.

(** C2: when the inner invoker returns a non-nil error, [Invoke] returns
    the invoker's own pair, whatever the result is, and the sink is not
    called: the world is the one the invoker left and the journal gains
    the invoker call only. *)
Theorem invoker_error_skips_sink si ctx input s result e w1 :
  Invoke (invoker si) ctx input (world s) = ((result, Some e), w1) ->
  sinkInvoker_Invoke si ctx input s =
    ((result, Some e), mkState w1 (journal s ++ [EvInvoke ctx input]))
  /\ sink_calls (journal (sinkInvoker_Invoke si ctx input s).2)
     = sink_calls (journal s).
Proof.
  intros Hinv. rewrite Invoke_unfold, Hinv. split; [reflexivity|].
  simpl. rewrite sink_calls_app.
  change (sink_calls [EvInvoke ctx input]) with 0%nat. lia.
Qed.

(** C3: when the inner invoker returns [(result, nil)], [Invoke] returns
    exactly [(result, nil)] both without a sink (the sink is then not
    called) and with a sink that returns nil. *)
Theorem success_returns_result_nil si ctx input s result w1 :
  Invoke (invoker si) ctx input (world s) = ((result, None), w1) ->
  (sink si = None ->
   sinkInvoker_Invoke si ctx input s =
     ((result, None), mkState w1 (journal s ++ [EvInvoke ctx input])))
  /\ (forall snk w2, sink si = Some snk -> snk ctx result w1 = (None, w2) ->
      sinkInvoker_Invoke si ctx input s =
        ((result, None),
         mkState w2 (journal s ++ [EvInvoke ctx input; EvSink ctx result]))).
Proof.
  intros Hinv. split.
  - intros Hsink. by rewrite Invoke_unfold, Hinv, Hsink.
  - intros snk w2 Hsink Hsnk. by rewrite Invoke_unfold, Hinv, Hsink, Hsnk.
Qed.

End SinkInvoker.

(** ** Setup steps touch nothing but setup *)

Section Setup.

Context {W Input Result : Type}.

Local Abbreviation State := (State W Input Result).
Local Abbreviation M := (M W Input Result).
Local Abbreviation Externals := (Externals W Input Result).
Local Abbreviation setup_only := (@setup_only W Input Result _).

Implicit Types (ext : Externals) (env : gmap string string) (s : State).

Lemma setup_only_ret {A : Type} (a : A) : setup_only (ret a).
Proof. intros s. exists []. simpl. by rewrite app_nil_r. Qed.

Lemma setup_only_foreign {A : Type} ev (f : W -> A * W) :
  is_setup ev = true -> setup_only (foreign ev f).
Proof.
  intros Hev s. exists [ev]. unfold foreign.
  destruct (f (world s)) as [a w]. simpl. by rewrite Hev.
Qed.

Lemma setup_only_bind {A B : Type} (m : M A) (k : A -> M B) :
  setup_only m -> (forall a, setup_only (k a)) -> setup_only (bind m k).
Proof.
  intros Hm Hk s. unfold bind.
  destruct (Hm s) as (evs1 & H1 & F1).
  destruct (m s) as [a s1]. simpl in H1.
  destruct (Hk a s1) as (evs2 & H2 & F2).
  exists (evs1 ++ evs2). rewrite H2, H1, <- app_assoc. split; [done|].
  rewrite forallb_app, F1, F2. done.
Qed.

Ltac setup_steps :=
  repeat first
    [ apply setup_only_ret
    | apply setup_only_bind; [apply setup_only_foreign; reflexivity | intros [?|?]]
    | match goal with |- setup_only (if ?b then _ else _) => destruct b end
    | match goal with |- setup_only (match ?x with _ => _ end) => destruct x end ].

Lemma getInvoker_setup_only ext env : setup_only (getInvoker ext env).
Proof. unfold getInvoker. cbv zeta. setup_steps. Qed.

Lemma getEventSource_setup_only ext env : setup_only (getEventSource ext env).
Proof. unfold getEventSource. cbv zeta. setup_steps. Qed.

Lemma getEventSink_setup_only ext env : setup_only (getEventSink ext env).
Proof. unfold getEventSink. cbv zeta. setup_steps. Qed.

Lemma setup_events_no_source (evs : list (Event Input Result)) :
  forallb is_setup evs = true -> source_calls evs = 0%nat.
Proof.
  induction evs as [|ev evs IH]; [done|]. simpl.
  intros [Hev Hevs]%andb_true_iff. specialize (IH Hevs).
  unfold source_calls in *. rewrite filter_cons.
  destruct ev; simpl in *; done.
Qed.

(** [getInvoker], by the outcome of its two foreign calls. *)
Lemma getInvoker_unfold ext env s :
  getInvoker ext env s =
  let line := Getenv env "FUNCTION_COMMAND" in
  match ParseCmd ext line (world s) with
  | (inr e, w1) => (inr e, mkState w1 (journal s ++ [EvParseCmd line]))
  | (inl cmd, w1) =>
      let config := poolConfig env cmd in
      let '(r, w2) := NewInvokerPool ext config w1 in
      (r, mkState w2 (journal s ++ [EvParseCmd line; EvNewInvokerPool config]))
  end.
Proof.
  unfold getInvoker, bind, foreign, ret. cbv zeta.
  destruct (ParseCmd ext _ (world s)) as [[cmd|e] w1]; [|reflexivity]. simpl.
  destruct (NewInvokerPool ext _ w1) as [[pool|e] w2];
    by rewrite <- app_assoc.
Qed.

(** [getEventSource], by the outcome of its two foreign calls. *)
Lemma getEventSource_unfold ext env s :
  getEventSource ext env s =
  let path := Getenv env "SOURCE_PLUGIN_PATH" in
  let symbolName := Getenv env "SOURCE_PLUGIN_SYMBOL" in
  if String.eqb path "" then
    (inr (errors_New "SOURCE_PLUGIN_PATH is a required environment variable"), s)
  else
    match plugin_Open ext path (world s) with
    | (inr e, w1) => (inr e, mkState w1 (journal s ++ [EvOpen path]))
    | (inl p, w1) =>
        if String.eqb symbolName "" then
          (inr (errors_New "SOURCE_PLUGIN_SYMBOL is a required environment variable"),
           mkState w1 (journal s ++ [EvOpen path]))
        else
          let '(r, w2) := plugin_Lookup ext p symbolName w1 in
          (match r with
           | inr e => inr e
           | inl sym =>
               match assert_source sym with
               | Some source => inl source
               | None => inr (fmt_Errorf_symbol symbolName path)
               end
           end,
           mkState w2 (journal s ++ [EvOpen path; EvLookup p symbolName]))
    end.
Proof.
  unfold getEventSource, bind, foreign, ret. cbv zeta.
  destruct (String.eqb (Getenv env "SOURCE_PLUGIN_PATH") ""); [reflexivity|].
  destruct (plugin_Open ext _ (world s)) as [[p|e] w1]; [|reflexivity].
  destruct (String.eqb (Getenv env "SOURCE_PLUGIN_SYMBOL") ""); [reflexivity|].
  simpl. destruct (plugin_Lookup ext p _ w1) as [[sym|e] w2]; simpl;
    [destruct (assert_source sym)|]; by rewrite <- app_assoc.
Qed.

(** [getEventSink], by the outcome of its two foreign calls. *)
Lemma getEventSink_unfold ext env s :
  getEventSink ext env s =
  let path := Getenv env "SINK_PLUGIN_PATH" in
  let symbolName := Getenv env "SINK_PLUGIN_SYMBOL" in
  if String.eqb path "" then (inl None, s)
  else
    match plugin_Open ext path (world s) with
    | (inr e, w1) => (inr e, mkState w1 (journal s ++ [EvOpen path]))
    | (inl p, w1) =>
        if String.eqb symbolName "" then
          (inr (errors_New
             "SINK_PLUGIN_SYMBOL is required when a SINK_PLUGIN_PATH is provided"),
           mkState w1 (journal s ++ [EvOpen path]))
        else
          let '(r, w2) := plugin_Lookup ext p symbolName w1 in
          (match r with
           | inr e => inr e
           | inl sym =>
               match assert_sink sym with
               | Some sink => inl (Some sink)
               | None => inr (fmt_Errorf_symbol symbolName path)
               end
           end,
           mkState w2 (journal s ++ [EvOpen path; EvLookup p symbolName]))
    end.
Proof.
  unfold getEventSink, bind, foreign, ret. cbv zeta.
  destruct (String.eqb (Getenv env "SINK_PLUGIN_PATH") ""); [reflexivity|].
  destruct (plugin_Open ext _ (world s)) as [[p|e] w1]; [|reflexivity].
  destruct (String.eqb (Getenv env "SINK_PLUGIN_SYMBOL") ""); [reflexivity|].
  simpl. destruct (plugin_Lookup ext p _ w1) as [[sym|e] w2]; simpl;
    [destruct (assert_sink sym)|]; by rewrite <- app_assoc.
Qed.

(** A failed or finished setup step leaves the count of source calls. *)
Lemma setup_only_source_calls {A : Type} (m : M A) s :
  setup_only m -> source_calls (journal (m s).2) = source_calls (journal s).
Proof.
  intros Hm. destruct (Hm s) as (evs & -> & Hevs).
  rewrite source_calls_app, (setup_events_no_source evs Hevs). lia.
Qed.

End Setup.

(** ** The pool configuration *)

Section Configuration.

Context {W Input Result : Type}.

Local Abbreviation State := (State W Input Result).
Local Abbreviation Externals := (Externals W Input Result).

Implicit Types (ext : Externals) (env : gmap string string) (s : State)
  (cmd : Cmd).


Lemma Atoi_range v i : Atoi v = Some i -> minInt <= i <= maxInt.
Proof.
  unfold Atoi. destruct v as [|c rest]; [done|]. cbv zeta.
  destruct (if Ascii.eqb c "-" then _ else _) as [n|]; [|done].
  destruct (minInt <=? n) eqn:Hlo; [|done].
  destruct (n <=? maxInt) eqn:Hhi; [|done].
  simpl. intros [= <-]. split; [by apply Z.leb_le | by apply Z.leb_le].
Qed.

Lemma Getenv_None env key : env !! key = None -> Getenv env key = "".
Proof. unfold Getenv. by intros ->. Qed.

Lemma Getenv_Some env key v : env !! key = Some v -> Getenv env key = v.
Proof. unfold Getenv. by intros ->. Qed.

(** [os.Getenv] cannot tell a variable set to the empty string from one
    that is not set. *)
Lemma Getenv_empty_absent env key key' :
  Getenv (<[key := ""]> env) key' = Getenv (delete key env) key'.
Proof.
  unfold Getenv. destruct (decide (key = key')) as [->|Hne].
  - by rewrite lookup_insert_eq, lookup_delete_eq.
  - by rewrite lookup_insert_ne, lookup_delete_ne.
Qed.

Lemma override_unparsable fallback str :
  Atoi str = None -> override fallback str = fallback.
Proof. unfold override. intros ->. by destruct (negb _). Qed.

Lemma override_parsed fallback str i :
  Atoi str = Some i -> override fallback str = i.
Proof.
  unfold override. intros H. destruct str as [|c rest]; [done|].
  by rewrite H.
Qed.

Lemma poolConfig_fields env cmd :
  MaxInvokerCount (poolConfig env cmd) = override 8 (Getenv env "MAX_FUNCTION_COUNT")
  /\ MaxWaitDuration (poolConfig env cmd)
     = millis (override 500 (Getenv env "MAX_WAIT_MILLIS"))
  /\ MaxRunnableTime (poolConfig env cmd)
     = millis (override 30000 (Getenv env "MAX_EXEC_MILLIS"))
  /\ Factory (poolConfig env cmd) = NewCmdInvokerFactory (set_Env cmd (Environ env)).
Proof. repeat split. Qed.


Lemma millis_exact n :
  minInt <= n * Millisecond <= maxInt -> millis n = n * Millisecond.
Proof.
  unfold millis, wrap64, minInt, maxInt, intSize. intros H.
  rewrite Z.mod_small; lia.
Qed.

(** C4: the claim as amended.  The pool size is an integer of the range
    of [int], not necessarily positive.  For each of the three numeric
    fields, an override that [strconv.Atoi] cannot parse is ignored and the
    field keeps its default (8, 500 ms, 30000 ms), as it does when the
    variable is not set.  An override that parses is always used: the pool
    size is the parsed integer, zero and negative values included; a
    duration is the parsed number of milliseconds times [time.Millisecond]
    in [int64] arithmetic, exact between -9223372036854 and 9223372036854.
    This configuration is the one [getInvoker] hands to the pool
    constructor. *)
Theorem unparsable_override_keeps_default ext env cmd :
  let config := poolConfig env cmd in
  ((forall v, env !! "MAX_FUNCTION_COUNT" = Some v -> Atoi v = None ->
      MaxInvokerCount config = 8)
   /\ (forall v, env !! "MAX_WAIT_MILLIS" = Some v -> Atoi v = None ->
       MaxWaitDuration config = 500 * Millisecond)
   /\ (forall v, env !! "MAX_EXEC_MILLIS" = Some v -> Atoi v = None ->
       MaxRunnableTime config = 30000 * Millisecond))
  /\ ((env !! "MAX_FUNCTION_COUNT" = None -> MaxInvokerCount config = 8)
      /\ (env !! "MAX_WAIT_MILLIS" = None ->
          MaxWaitDuration config = 500 * Millisecond)
      /\ (env !! "MAX_EXEC_MILLIS" = None ->
          MaxRunnableTime config = 30000 * Millisecond))
  /\ ((forall v i, env !! "MAX_FUNCTION_COUNT" = Some v -> Atoi v = Some i ->
        MaxInvokerCount config = i)
      /\ (forall v i, env !! "MAX_WAIT_MILLIS" = Some v -> Atoi v = Some i ->
          MaxWaitDuration config = millis i
          /\ (-9223372036854 <= i <= 9223372036854 ->
              MaxWaitDuration config = i * Millisecond))
      /\ (forall v i, env !! "MAX_EXEC_MILLIS" = Some v -> Atoi v = Some i ->
          MaxRunnableTime config = millis i
          /\ (-9223372036854 <= i <= 9223372036854 ->
              MaxRunnableTime config = i * Millisecond)))
  /\ minInt <= MaxInvokerCount config <= maxInt
  /\ (forall s w1,
        ParseCmd ext (Getenv env "FUNCTION_COMMAND") (world s) = (inl cmd, w1) ->
        journal (getInvoker ext env s).2 =
          journal s ++ [EvParseCmd (Getenv env "FUNCTION_COMMAND");
                        EvNewInvokerPool config]).
Proof.
  intros config. subst config.
  destruct (poolConfig_fields env cmd) as (Hn & Hw & Hx & _).
  rewrite Hn, Hw, Hx.
  assert (Hexact : forall i, -9223372036854 <= i <= 9223372036854 ->
            millis i = i * Millisecond).
  { intros i Hi. apply millis_exact.
    unfold minInt, maxInt, intSize, Millisecond. lia. }
  split; [|split; [|split; [|split]]].
  - split; [|split]; intros v Hv Hp; rewrite (Getenv_Some _ _ _ Hv);
      by rewrite (override_unparsable _ _ Hp).
  - split; [|split]; intros Hv; rewrite (Getenv_None _ _ Hv); reflexivity.
  - split; [|split].
    + intros v i Hv Hi. rewrite (Getenv_Some _ _ _ Hv). by apply override_parsed.
    + intros v i Hv Hi. rewrite (Getenv_Some _ _ _ Hv), (override_parsed _ _ _ Hi).
      split; [reflexivity|apply Hexact].
    + intros v i Hv Hi. rewrite (Getenv_Some _ _ _ Hv), (override_parsed _ _ _ Hi).
      split; [reflexivity|apply Hexact].
  - destruct (Atoi (Getenv env "MAX_FUNCTION_COUNT")) as [i|] eqn:Hi.
    + rewrite (override_parsed _ _ _ Hi). by apply (Atoi_range _ _ Hi).
    + rewrite (override_unparsable _ _ Hi). done.
  - intros s w1 Hcmd. rewrite getInvoker_unfold. cbv zeta. rewrite Hcmd.
    by destruct (NewInvokerPool ext _ w1) as [r w2].
Qed.


(** C10: a variable set to the empty string reads like one that is not
    set.  Both plugin resolutions and the three numeric fields are the
    same for the two environments; so an empty [SINK_PLUGIN_PATH] gives no
    sink and no error, an empty [SOURCE_PLUGIN_PATH] gives the
    required-variable error, an empty [SOURCE_PLUGIN_SYMBOL] gives an
    error (the required-variable error once the module is open), and an
    empty numeric variable leaves the default. *)
Theorem empty_value_reads_as_absent ext env cmd :
  (forall key key', Getenv (<[key := ""]> env) key' = Getenv (delete key env) key')
  /\ (forall key s,
       getEventSource ext (<[key := ""]> env) s = getEventSource ext (delete key env) s
       /\ getEventSink ext (<[key := ""]> env) s = getEventSink ext (delete key env) s)
  /\ (forall key,
       MaxInvokerCount (poolConfig (<[key := ""]> env) cmd)
         = MaxInvokerCount (poolConfig (delete key env) cmd)
       /\ MaxWaitDuration (poolConfig (<[key := ""]> env) cmd)
         = MaxWaitDuration (poolConfig (delete key env) cmd)
       /\ MaxRunnableTime (poolConfig (<[key := ""]> env) cmd)
         = MaxRunnableTime (poolConfig (delete key env) cmd))
  /\ (forall s, getEventSink ext (<["SINK_PLUGIN_PATH" := ""]> env) s = (inl None, s))
  /\ (forall s, getEventSource ext (<["SOURCE_PLUGIN_PATH" := ""]> env) s =
       (inr (errors_New "SOURCE_PLUGIN_PATH is a required environment variable"), s))
  /\ (forall s, exists e s',
       getEventSource ext (<["SOURCE_PLUGIN_SYMBOL" := ""]> env) s = (inr e, s')
       /\ (forall p w1,
            plugin_Open ext (Getenv env "SOURCE_PLUGIN_PATH") (world s) = (inl p, w1) ->
            Getenv env "SOURCE_PLUGIN_PATH" <> "" ->
            e = errors_New "SOURCE_PLUGIN_SYMBOL is a required environment variable"))
  /\ MaxInvokerCount (poolConfig (<["MAX_FUNCTION_COUNT" := ""]> env) cmd) = 8
  /\ MaxWaitDuration (poolConfig (<["MAX_WAIT_MILLIS" := ""]> env) cmd)
     = 500 * Millisecond
  /\ MaxRunnableTime (poolConfig (<["MAX_EXEC_MILLIS" := ""]> env) cmd)
     = 30000 * Millisecond.
Proof.
  split; [intros; apply Getenv_empty_absent|].
  split.
  { intros key s. rewrite !getEventSource_unfold, !getEventSink_unfold.
    cbv zeta. by rewrite !Getenv_empty_absent. }
  split.
  { intros key.
    destruct (poolConfig_fields (<[key := ""]> env) cmd) as (-> & -> & -> & _).
    destruct (poolConfig_fields (delete key env) cmd) as (-> & -> & -> & _).
    by rewrite !Getenv_empty_absent. }
  split.
  { intros s. rewrite getEventSink_unfold. cbv zeta.
    by rewrite (Getenv_Some _ _ "") by apply lookup_insert_eq. }
  split.
  { intros s. rewrite getEventSource_unfold. cbv zeta.
    by rewrite (Getenv_Some _ _ "") by apply lookup_insert_eq. }
  split.
  { intros s. rewrite getEventSource_unfold. cbv zeta.
    rewrite (Getenv_Some _ "SOURCE_PLUGIN_SYMBOL" "") by apply lookup_insert_eq.
    assert (Getenv (<["SOURCE_PLUGIN_SYMBOL" := ""]> env) "SOURCE_PLUGIN_PATH"
            = Getenv env "SOURCE_PLUGIN_PATH") as ->.
    { unfold Getenv. by rewrite lookup_insert_ne. }
    destruct (String.eqb (Getenv env "SOURCE_PLUGIN_PATH") "") eqn:Hpath.
    - eexists _, _. split; [reflexivity|].
      intros p w1 _ Hne. by apply String.eqb_eq in Hpath.
    - destruct (plugin_Open ext _ (world s)) as [[p|e] w1]; simpl.
      + eexists _, _. split; [reflexivity|]. done.
      + eexists _, _. split; [reflexivity|]. intros ? ? [=]. }
  destruct (poolConfig_fields (<["MAX_FUNCTION_COUNT" := ""]> env) cmd) as (-> & _).
  destruct (poolConfig_fields (<["MAX_WAIT_MILLIS" := ""]> env) cmd) as (_ & -> & _).
  destruct (poolConfig_fields (<["MAX_EXEC_MILLIS" := ""]> env) cmd) as (_ & _ & -> & _).
  rewrite !(Getenv_Some _ _ "") by apply lookup_insert_eq.
  done.
Qed.

End Configuration.

(** ** Plugin resolution and [run] *)

Section Orchestrator.

Context {W Input Result : Type}.

Local Abbreviation State := (State W Input Result).
Local Abbreviation Externals := (Externals W Input Result).
Local Abbreviation eventSource := (eventSource W Input Result).
Local Abbreviation eventSink := (eventSink W Result).

Implicit Types (ext : Externals) (env : gmap string string) (s : State).

(** [run], by the outcome of its three setup steps. *)
Lemma run_unfold ext env s :
  run ext env s =
  match getInvoker ext env s with
  | (inr e, s1) => (Some e, s1)
  | (inl pool, s1) =>
      match getEventSource ext env s1 with
      | (inr e, s2) => (Some e, s2)
      | (inl source, s2) =>
          match getEventSink ext env s2 with
          | (inr e, s3) => (Some e, s3)
          | (inl snk, s3) =>
              source Background (as_Invoker (mkSinkInvoker pool snk))
                (record (EvSource Background) s3)
          end
      end
  end.
Proof.
  unfold run, bind, ret, call_source.
  destruct (getInvoker ext env s) as [[pool|e] s1]; [|reflexivity].
  destruct (getEventSource ext env s1) as [[source|e] s2]; [|reflexivity].
  destruct (getEventSink ext env s2) as [[snk|e] s3]; reflexivity.
Qed.



(** C7: [run] performs pool construction, source resolution and sink
    resolution in that order, each from the state the one before left; at
    the first that fails it returns that error from that state, so that no
    later step runs and the event source is not called.  A source module
    that does not load is such a failure. *)
Theorem setup_failure_ends_run ext env s :
  (forall e s1,
     getInvoker ext env s = (inr e, s1) ->
     run ext env s = (Some e, s1)
     /\ source_calls (journal s1) = source_calls (journal s))
  /\ (forall pool s1 e s2,
        getInvoker ext env s = (inl pool, s1) ->
        getEventSource ext env s1 = (inr e, s2) ->
        run ext env s = (Some e, s2)
        /\ source_calls (journal s2) = source_calls (journal s))
  /\ (forall pool s1 source s2 e s3,
        getInvoker ext env s = (inl pool, s1) ->
        getEventSource ext env s1 = (inl source, s2) ->
        getEventSink ext env s2 = (inr e, s3) ->
        run ext env s = (Some e, s3)
        /\ source_calls (journal s3) = source_calls (journal s))
  /\ (forall pool s1 e w2,
        getInvoker ext env s = (inl pool, s1) ->
        Getenv env "SOURCE_PLUGIN_PATH" <> "" ->
        plugin_Open ext (Getenv env "SOURCE_PLUGIN_PATH") (world s1) = (inr e, w2) ->
        run ext env s =
          (Some e, mkState w2 (journal s1 ++ [EvOpen (Getenv env "SOURCE_PLUGIN_PATH")]))).
Proof.
  assert (C1 : forall a s1, getInvoker ext env s = (a, s1) ->
            source_calls (journal s1) = source_calls (journal s)).
  { intros a s1 H. pose proof (setup_only_source_calls _ s (getInvoker_setup_only ext env)) as Hc.
    by rewrite H in Hc. }
  assert (C2 : forall a s1 s2, getEventSource ext env s1 = (a, s2) ->
            source_calls (journal s2) = source_calls (journal s1)).
  { intros a s1 s2 H. pose proof (setup_only_source_calls _ s1 (getEventSource_setup_only ext env)) as Hc.
    by rewrite H in Hc. }
  assert (C3 : forall a s2 s3, getEventSink ext env s2 = (a, s3) ->
            source_calls (journal s3) = source_calls (journal s2)).
  { intros a s2 s3 H. pose proof (setup_only_source_calls _ s2 (getEventSink_setup_only ext env)) as Hc.
    by rewrite H in Hc. }
  split; [|split; [|split]].
  - intros e s1 H1. split; [by rewrite run_unfold, H1 | eauto].
  - intros pool s1 e s2 H1 H2. split; [by rewrite run_unfold, H1, H2|].
    rewrite (C2 _ _ _ H2). eauto.
  - intros pool s1 source s2 e s3 H1 H2 H3.
    split; [by rewrite run_unfold, H1, H2, H3|].
    rewrite (C3 _ _ _ H3), (C2 _ _ _ H2). eauto.
  - intros pool s1 e w2 H1 Hne Hopen.
    rewrite run_unfold, H1, getEventSource_unfold. cbv zeta.
    apply String.eqb_neq in Hne. by rewrite Hne, Hopen.
Qed.

(** C8: a symbol that the module has but whose dynamic type is not the
    asserted function type makes resolution return an error, for the source
    and for the sink alike; resolution returns a function exactly when the
    looked-up symbol is a function of the asserted type, and then returns
    that function. *)
Theorem shape_mismatch_is_an_error ext env s p w1 sym w2 :
  (Getenv env "SOURCE_PLUGIN_PATH" <> "" ->
   Getenv env "SOURCE_PLUGIN_SYMBOL" <> "" ->
   plugin_Open ext (Getenv env "SOURCE_PLUGIN_PATH") (world s) = (inl p, w1) ->
   plugin_Lookup ext p (Getenv env "SOURCE_PLUGIN_SYMBOL") w1 = (inl sym, w2) ->
   let s' := mkState w2 (journal s ++
     [EvOpen (Getenv env "SOURCE_PLUGIN_PATH");
      EvLookup p (Getenv env "SOURCE_PLUGIN_SYMBOL")]) in
   ((forall f, sym <> FuncSource f) ->
    getEventSource ext env s =
      (inr (fmt_Errorf_symbol (Getenv env "SOURCE_PLUGIN_SYMBOL")
              (Getenv env "SOURCE_PLUGIN_PATH")), s'))
   /\ (forall f, sym = FuncSource f -> getEventSource ext env s = (inl f, s')))
  /\ (Getenv env "SINK_PLUGIN_PATH" <> "" ->
      Getenv env "SINK_PLUGIN_SYMBOL" <> "" ->
      plugin_Open ext (Getenv env "SINK_PLUGIN_PATH") (world s) = (inl p, w1) ->
      plugin_Lookup ext p (Getenv env "SINK_PLUGIN_SYMBOL") w1 = (inl sym, w2) ->
      let s' := mkState w2 (journal s ++
        [EvOpen (Getenv env "SINK_PLUGIN_PATH");
         EvLookup p (Getenv env "SINK_PLUGIN_SYMBOL")]) in
      ((forall f, sym <> FuncSink f) ->
       getEventSink ext env s =
         (inr (fmt_Errorf_symbol (Getenv env "SINK_PLUGIN_SYMBOL")
                 (Getenv env "SINK_PLUGIN_PATH")), s'))
      /\ (forall f, sym = FuncSink f -> getEventSink ext env s = (inl (Some f), s')))
  /\ (forall f s', getEventSource ext env s = (inl f, s') ->
      exists p' w1' w2',
        plugin_Open ext (Getenv env "SOURCE_PLUGIN_PATH") (world s) = (inl p', w1')
        /\ plugin_Lookup ext p' (Getenv env "SOURCE_PLUGIN_SYMBOL") w1'
           = (inl (FuncSource f), w2'))
  /\ (forall f s', getEventSink ext env s = (inl (Some f), s') ->
      exists p' w1' w2',
        plugin_Open ext (Getenv env "SINK_PLUGIN_PATH") (world s) = (inl p', w1')
        /\ plugin_Lookup ext p' (Getenv env "SINK_PLUGIN_SYMBOL") w1'
           = (inl (FuncSink f), w2')).
Proof.
  split; [|split; [|split]].
  - intros Hpath%String.eqb_neq Hname%String.eqb_neq Hopen Hlook s'. subst s'.
    rewrite getEventSource_unfold. cbv zeta. rewrite Hpath, Hopen, Hname, Hlook.
    split.
    + intros Hsym. destruct sym as [f| |]; [by destruct (Hsym f)|done|done].
    + by intros f ->.
  - intros Hpath%String.eqb_neq Hname%String.eqb_neq Hopen Hlook s'. subst s'.
    rewrite getEventSink_unfold. cbv zeta. rewrite Hpath, Hopen, Hname, Hlook.
    split.
    + intros Hsym. destruct sym as [|f|]; [done|by destruct (Hsym f)|done].
    + by intros f ->.
  - intros f s'. rewrite getEventSource_unfold. cbv zeta.
    destruct (String.eqb (Getenv env "SOURCE_PLUGIN_PATH") ""); [done|].
    destruct (plugin_Open ext _ (world s)) as [[p' |e] w1']; [|done].
    destruct (String.eqb (Getenv env "SOURCE_PLUGIN_SYMBOL") ""); [done|].
    destruct (plugin_Lookup ext p' _ w1') as [[sym' |e] w2'] eqn:Hlook; [|done].
    destruct sym' as [g| |]; simpl; [|done|done].
    intros [= <- _]. by exists p', w1', w2'.
  - intros f s'. rewrite getEventSink_unfold. cbv zeta.
    destruct (String.eqb (Getenv env "SINK_PLUGIN_PATH") ""); [done|].
    destruct (plugin_Open ext _ (world s)) as [[p' |e] w1']; [|done].
    destruct (String.eqb (Getenv env "SINK_PLUGIN_SYMBOL") ""); [done|].
    destruct (plugin_Lookup ext p' _ w1') as [[sym' |e] w2'] eqn:Hlook; [|done].
    destruct sym' as [|g|]; simpl; [done| |done].
    intros [= <- _]. by exists p', w1', w2'.
Qed.

(** C9: [Invoke] hands the context it was given, and no other, to the
    inner invoker and to the sink.  When setup succeeds, the last thing
    [run] does is to call the event source, once, on
    [context.Background()], a context without deadline that nobody can
    cancel, and on the sink invoker built from the pool and the sink. *)
Theorem context_is_passed_on ext env s pool s1 source s2 snk s3 :
  getInvoker ext env s = (inl pool, s1) ->
  getEventSource ext env s1 = (inl source, s2) ->
  getEventSink ext env s2 = (inl snk, s3) ->
  (forall (si : sinkInvoker W Input Result) ctx input s0,
     sinkInvoker_Invoke si ctx input s0 =
       (let '((result, err), w1) := Invoke (invoker si) ctx input (world s0) in
        match err, sink si with
        | None, Some f =>
            let '(newErr, w2) := f ctx result w1 in
            ((result, newErr),
             mkState w2 (journal s0 ++ [EvInvoke ctx input; EvSink ctx result]))
        | _, _ => ((result, err), mkState w1 (journal s0 ++ [EvInvoke ctx input]))
        end)
     /\ exists evs,
          journal (sinkInvoker_Invoke si ctx input s0).2 = journal s0 ++ evs
          /\ Forall (fun ev => event_ctx ev = Some ctx) evs)
  /\ run ext env s =
       source Background (as_Invoker (mkSinkInvoker pool snk))
         (record (EvSource Background) s3)
  /\ source_calls (journal (record (EvSource Background) s3))
     = S (source_calls (journal s))
  /\ Deadline Background = None
  /\ Done Background = false.
Proof.
  intros H1 H2 H3. split; [|split; [|split]].
  - intros si ctx input s0. split; [apply Invoke_unfold|].
    rewrite Invoke_unfold.
    destruct (Invoke (invoker si) ctx input (world s0)) as [[result [e|]] w1].
    + exists [EvInvoke ctx input]. split; [done|]. by repeat constructor.
    + destruct (sink si) as [f|].
      * destruct (f ctx result w1) as [newErr w2].
        exists [EvInvoke ctx input; EvSink ctx result].
        split; [done|]. by repeat constructor.
      * exists [EvInvoke ctx input]. split; [done|]. by repeat constructor.
  - by rewrite run_unfold, H1, H2, H3.
  - pose proof (setup_only_source_calls _ s (getInvoker_setup_only ext env)) as C1.
    pose proof (setup_only_source_calls _ s1 (getEventSource_setup_only ext env)) as C2.
    pose proof (setup_only_source_calls _ s2 (getEventSink_setup_only ext env)) as C3.
    rewrite H1 in C1. rewrite H2 in C2. rewrite H3 in C3. simpl in C1, C2, C3.
    unfold record. simpl. rewrite source_calls_app, C3, C2, C1.
    change (source_calls [EvSource Background]) with 1%nat. lia.
  - done.
Qed.

End Orchestrator.

(** * The properties on the concrete installation *)

Section Instances.

Import Sample.

(** The disk of the sink is full: the result [ok] comes back with the
    error of the sink. *)
Lemma sink_error_keeps_result_witness :
  Invoke (invoker si_full_disk) ctx (Some "event") (world start)
    = ((Some "ok", None), ["run event"])
  /\ sink si_full_disk = Some full_disk
  /\ full_disk ctx (Some "ok") ["run event"]
     = (Some (errorString "disk full"), ["run event"; "sink failed"])
  /\ sinkInvoker_Invoke si_full_disk ctx (Some "event") start =
       ((Some "ok", Some (errorString "disk full")),
        mkState ["run event"; "sink failed"]
          [EvInvoke ctx (Some "event"); EvSink ctx (Some "ok")]).
Proof.
  split; [reflexivity|]. split; [reflexivity|]. split; [reflexivity|].
  apply (sink_error_keeps_result si_full_disk full_disk ctx (Some "event") start
           (Some "ok") ["run event"] (errorString "disk full")
           ["run event"; "sink failed"]); reflexivity.
Defined.

(** The function fails on [boom] with a partial result: the pair comes
    back as it is and the sink with the full disk is not called. *)
Lemma invoker_error_skips_sink_witness :
  Invoke (invoker si_full_disk) ctx (Some "boom") (world start)
    = ((Some "partial", Some (errorString "exit status 1")), ["run boom"])
  /\ (sinkInvoker_Invoke si_full_disk ctx (Some "boom") start =
        ((Some "partial", Some (errorString "exit status 1")),
         mkState ["run boom"] [EvInvoke ctx (Some "boom")])
      /\ sink_calls (journal (sinkInvoker_Invoke si_full_disk ctx (Some "boom") start).2)
         = sink_calls (journal start)).
Proof.
  split; [reflexivity|].
  apply (invoker_error_skips_sink si_full_disk ctx (Some "boom") start
           (Some "partial") (errorString "exit status 1") ["run boom"]).
  reflexivity.
Defined.

(** Without a sink, and with a sink that publishes, [ok] comes back with
    a nil error. *)
Lemma success_returns_result_nil_witness :
  Invoke pool ctx (Some "event") (world start) = ((Some "ok", None), ["run event"])
  /\ sinkInvoker_Invoke si_plain ctx (Some "event") start =
       ((Some "ok", None), mkState ["run event"] [EvInvoke ctx (Some "event")])
  /\ publish ctx (Some "ok") ["run event"] = (None, ["run event"; "published ok"])
  /\ sinkInvoker_Invoke si_publish ctx (Some "event") start =
       ((Some "ok", None),
        mkState ["run event"; "published ok"]
          [EvInvoke ctx (Some "event"); EvSink ctx (Some "ok")]).
Proof.
  split; [reflexivity|]. split.
  { apply (proj1 (success_returns_result_nil si_plain ctx (Some "event") start
                    (Some "ok") ["run event"] eq_refl)).
    reflexivity. }
  split; [reflexivity|].
  apply (proj2 (success_returns_result_nil si_publish ctx (Some "event") start
                  (Some "ok") ["run event"] eq_refl)
           publish ["run event"; "published ok"]); reflexivity.
Defined.

(** C4, the claim as stated, fails: [-3] is no positive integer, and yet
    the pool configuration carries [-3] and not the default [8]; this is
    the configuration [getInvoker] hands to the pool constructor. *)
Lemma negative_pool_size_is_kept :
  env_numbers !! "MAX_FUNCTION_COUNT" = Some "-3"
  /\ ~ (exists i, Atoi "-3" = Some i /\ 0 < i)
  /\ MaxInvokerCount (poolConfig env_numbers cat) = -3
  /\ MaxInvokerCount (poolConfig env_numbers cat) <> 8
  /\ ~ 0 < MaxInvokerCount (poolConfig env_numbers cat)
  /\ journal (getInvoker ext env_numbers start).2
     = [EvParseCmd "cat"; EvNewInvokerPool (poolConfig env_numbers cat)].
Proof.
  split; [by vm_compute|].
  split; [intros (i & Hi & Hpos); vm_compute in Hi; injection Hi as <-; lia|].
  assert (H : MaxInvokerCount (poolConfig env_numbers cat) = -3) by (by vm_compute).
  split; [exact H|]. rewrite H.
  split; [lia|]. split; [lia|]. by vm_compute.
Qed.

(** The override [-3] parses, so it is kept; the two durations do not
    parse, so they keep their defaults; a queue wait of [250] parses and
    is taken; and this is the configuration the pool constructor gets. *)
Lemma unparsable_override_keeps_default_witness :
  env_numbers !! "MAX_FUNCTION_COUNT" = Some "-3"
  /\ Atoi "-3" = Some (-3)
  /\ MaxInvokerCount (poolConfig env_numbers cat) = -3
  /\ env_numbers !! "MAX_WAIT_MILLIS" = Some "1s"
  /\ Atoi "1s" = None
  /\ MaxWaitDuration (poolConfig env_numbers cat) = 500 * Millisecond
  /\ env_numbers !! "MAX_EXEC_MILLIS" = Some "12_000"
  /\ Atoi "12_000" = None
  /\ MaxRunnableTime (poolConfig env_numbers cat) = 30000 * Millisecond
  /\ env_timeouts !! "MAX_WAIT_MILLIS" = Some "250"
  /\ Atoi "250" = Some 250
  /\ MaxWaitDuration (poolConfig env_timeouts cat) = 250 * Millisecond
  /\ env_timeouts !! "MAX_FUNCTION_COUNT" = None
  /\ MaxInvokerCount (poolConfig env_timeouts cat) = 8
  /\ ParseCmd ext (Getenv env_numbers "FUNCTION_COMMAND") (world start) = (inl cat, [])
  /\ journal (getInvoker ext env_numbers start).2
     = journal start ++ [EvParseCmd (Getenv env_numbers "FUNCTION_COMMAND");
                         EvNewInvokerPool (poolConfig env_numbers cat)].
Proof.
  assert (Hv : env_numbers !! "MAX_FUNCTION_COUNT" = Some "-3")
    by (vm_compute; reflexivity).
  assert (Hw : env_numbers !! "MAX_WAIT_MILLIS" = Some "1s")
    by (vm_compute; reflexivity).
  assert (Hx : env_numbers !! "MAX_EXEC_MILLIS" = Some "12_000")
    by (vm_compute; reflexivity).
  assert (Hw' : env_timeouts !! "MAX_WAIT_MILLIS" = Some "250")
    by (vm_compute; reflexivity).
  assert (Hn' : env_timeouts !! "MAX_FUNCTION_COUNT" = None)
    by (vm_compute; reflexivity).
  assert (Hcmd : ParseCmd ext (Getenv env_numbers "FUNCTION_COMMAND") (world start)
                 = (inl cat, [])) by (vm_compute; reflexivity).
  destruct (unparsable_override_keeps_default ext env_numbers cat)
    as ((_ & Hwait & Hexec) & _ & (Hparsed & _) & _ & Hjournal).
  destruct (unparsable_override_keeps_default ext env_timeouts cat)
    as (_ & (Hunset & _) & (_ & Hwait' & _) & _).
  split; [exact Hv|]. split; [reflexivity|].
  split; [exact (Hparsed "-3" (-3) Hv eq_refl)|].
  split; [exact Hw|]. split; [reflexivity|].
  split; [exact (Hwait "1s" Hw eq_refl)|].
  split; [exact Hx|]. split; [reflexivity|].
  split; [exact (Hexec "12_000" Hx eq_refl)|].
  split; [exact Hw'|]. split; [reflexivity|].
  split; [apply (proj2 (Hwait' "250" 250 Hw' eq_refl)); lia|].
  split; [exact Hn'|]. split; [exact (Hunset Hn')|].
  split; [exact Hcmd|]. exact (Hjournal start [] Hcmd).
Defined.



(** A pool that is refused, a source module that is missing and a sink
    without its symbol each end [run] with their own error. *)
Lemma setup_failure_ends_run_witness :
  (exists s1, getInvoker ext env_numbers start = (inr (errorString "bad pool size"), s1)
     /\ run ext env_numbers start = (Some (errorString "bad pool size"), s1))
  /\ (exists pool' s1 s2,
        getInvoker ext env_missing_source start = (inl pool', s1)
        /\ getEventSource ext env_missing_source s1
           = (inr (errorString "plugin.Open: realpath failed"), s2)
        /\ run ext env_missing_source start
           = (Some (errorString "plugin.Open: realpath failed"), s2)
        /\ source_calls (journal s2) = source_calls (journal start))
  /\ (exists pool' s1 source' s2 e s3,
        getInvoker ext env_partial_sink start = (inl pool', s1)
        /\ getEventSource ext env_partial_sink s1 = (inl source', s2)
        /\ getEventSink ext env_partial_sink s2 = (inr e, s3)
        /\ run ext env_partial_sink start = (Some e, s3)).
Proof.
  split; [|split].
  - eexists. split; [vm_compute; reflexivity|].
    apply (proj1 (setup_failure_ends_run ext env_numbers start)).
    vm_compute; reflexivity.
  - eexists _, _, _. split; [vm_compute; reflexivity|].
    split; [vm_compute; reflexivity|].
    eapply (proj1 (proj2 (setup_failure_ends_run ext env_missing_source start)));
      vm_compute; reflexivity.
  - eexists _, _, _, _, _, _. split; [vm_compute; reflexivity|].
    split; [vm_compute; reflexivity|]. split; [vm_compute; reflexivity|].
    eapply (proj1 (proj2 (proj2 (setup_failure_ends_run ext env_partial_sink start))));
      vm_compute; reflexivity.
Defined.

(** [Version] is a string variable and [Source] is no sink: both are
    refused; [Source] as a source and [Sink] as a sink are taken. *)
Lemma shape_mismatch_is_an_error_witness :
  getEventSource ext env_wrong_shape start =
    (inr (errorString "Symbol Version could not be found in ./src.so"),
     mkState ["open ./src.so"]
       [EvOpen "./src.so"; EvLookup (mkPlugin "./src.so") "Version"])
  /\ getEventSink ext env_sink_wrong_shape start =
    (inr (errorString "Symbol Source could not be found in ./sink.so"),
     mkState ["open ./sink.so"]
       [EvOpen "./sink.so"; EvLookup (mkPlugin "./sink.so") "Source"])
  /\ getEventSource ext env_source start =
    (inl one_event,
     mkState ["open ./src.so"]
       [EvOpen "./src.so"; EvLookup (mkPlugin "./src.so") "Source"])
  /\ getEventSink ext env_sink start =
    (inl (Some full_disk),
     mkState ["open ./sink.so"]
       [EvOpen "./sink.so"; EvLookup (mkPlugin "./sink.so") "Sink"]).
Proof.
  assert (N1 : Getenv env_wrong_shape "SOURCE_PLUGIN_PATH" <> "")
    by (vm_compute; discriminate).
  assert (N2 : Getenv env_wrong_shape "SOURCE_PLUGIN_SYMBOL" <> "")
    by (vm_compute; discriminate).
  assert (N3 : Getenv env_sink_wrong_shape "SINK_PLUGIN_PATH" <> "")
    by (vm_compute; discriminate).
  assert (N4 : Getenv env_sink_wrong_shape "SINK_PLUGIN_SYMBOL" <> "")
    by (vm_compute; discriminate).
  assert (N5 : Getenv env_source "SOURCE_PLUGIN_PATH" <> "")
    by (vm_compute; discriminate).
  assert (N6 : Getenv env_source "SOURCE_PLUGIN_SYMBOL" <> "")
    by (vm_compute; discriminate).
  assert (N7 : Getenv env_sink "SINK_PLUGIN_PATH" <> "")
    by (vm_compute; discriminate).
  assert (N8 : Getenv env_sink "SINK_PLUGIN_SYMBOL" <> "")
    by (vm_compute; discriminate).
  split; [|split; [|split]].
  - refine (proj1 (proj1 (shape_mismatch_is_an_error ext env_wrong_shape start
              (mkPlugin "./src.so") ["open ./src.so"] (OtherSymbol "*string")
              ["open ./src.so"]) N1 N2 _ _) _).
    + vm_compute; reflexivity.
    + vm_compute; reflexivity.
    + discriminate.
  - refine (proj1 (proj1 (proj2 (shape_mismatch_is_an_error ext env_sink_wrong_shape
              start (mkPlugin "./sink.so") ["open ./sink.so"] (FuncSource one_event)
              ["open ./sink.so"])) N3 N4 _ _) _).
    + vm_compute; reflexivity.
    + vm_compute; reflexivity.
    + discriminate.
  - refine (proj2 (proj1 (shape_mismatch_is_an_error ext env_source start
              (mkPlugin "./src.so") ["open ./src.so"] (FuncSource one_event)
              ["open ./src.so"]) N5 N6 _ _) one_event eq_refl).
    + vm_compute; reflexivity.
    + vm_compute; reflexivity.
  - refine (proj2 (proj1 (proj2 (shape_mismatch_is_an_error ext env_sink start
              (mkPlugin "./sink.so") ["open ./sink.so"] (FuncSink full_disk)
              ["open ./sink.so"])) N7 N8 _ _) full_disk eq_refl).
    + vm_compute; reflexivity.
    + vm_compute; reflexivity.
Defined.

(** With source and sink configured, [run] is the one call of the source
    on [context.Background()], and the call of [Invoke] inside it hands
    that context to the pool and to the sink. *)
Lemma context_is_passed_on_witness :
  getInvoker ext env_sink start = (inl pool, after_pool)
  /\ getEventSource ext env_sink after_pool = (inl one_event, after_source)
  /\ getEventSink ext env_sink after_source = (inl (Some full_disk), after_sink)
  /\ run ext env_sink start =
       one_event Background (as_Invoker si_full_disk)
         (record (EvSource Background) after_sink)
  /\ source_calls (journal (record (EvSource Background) after_sink)) = 1%nat
  /\ journal (run ext env_sink start).2 =
       journal after_sink ++ [EvSource Background; EvInvoke Background (Some "event");
                              EvSink Background (Some "ok")].
Proof.
  assert (H1 : getInvoker ext env_sink start = (inl pool, after_pool))
    by (vm_compute; reflexivity).
  assert (H2 : getEventSource ext env_sink after_pool = (inl one_event, after_source))
    by (vm_compute; reflexivity).
  assert (H3 : getEventSink ext env_sink after_source = (inl (Some full_disk), after_sink))
    by (vm_compute; reflexivity).
  destruct (context_is_passed_on ext env_sink start pool after_pool one_event
              after_source (Some full_disk) after_sink H1 H2 H3)
    as (_ & Hrun & Hcalls & _).
  split; [exact H1|]. split; [exact H2|]. split; [exact H3|].
  split; [exact Hrun|]. split; [exact Hcalls|].
  vm_compute; reflexivity.
Defined.

(** An empty [SINK_PLUGIN_PATH] next to a sink symbol still means no sink;
    an empty [SOURCE_PLUGIN_SYMBOL] is the required-variable error. *)
Lemma empty_value_reads_as_absent_witness :
  getEventSink ext (<["SINK_PLUGIN_PATH" := ""]> env_sink) start = (inl None, start)
  /\ getEventSource ext (<["SOURCE_PLUGIN_SYMBOL" := ""]> env_source) start =
       (inr (errors_New "SOURCE_PLUGIN_SYMBOL is a required environment variable"),
        mkState ["open ./src.so"] [EvOpen "./src.so"])
  /\ MaxInvokerCount (poolConfig (<["MAX_FUNCTION_COUNT" := ""]> env_numbers) cat) = 8.
Proof.
  destruct (empty_value_reads_as_absent ext env_sink cat)
    as (_ & _ & _ & Hsink & _).
  destruct (empty_value_reads_as_absent ext env_source cat)
    as (_ & _ & _ & _ & _ & Hsym & _).
  destruct (empty_value_reads_as_absent ext env_numbers cat)
    as (_ & _ & _ & _ & _ & _ & Hcount & _).
  split; [exact (Hsink start)|]. split; [|exact Hcount].
  destruct (Hsym start) as (e & s' & Hres & He).
  assert (Hopen : plugin_Open ext (Getenv env_source "SOURCE_PLUGIN_PATH") (world start)
                  = (inl (mkPlugin "./src.so"), ["open ./src.so"]))
    by (vm_compute; reflexivity).
  assert (Hne : Getenv env_source "SOURCE_PLUGIN_PATH" <> "")
    by (vm_compute; discriminate).
  specialize (He _ _ Hopen Hne). subst e.
  rewrite Hres. f_equal. vm_compute in Hres. by injection Hres as <-.
Defined.

End Instances.

(** * Further properties of [main.go] *)

(** ** [main] and the order of [run] *)

Section Main.

Context {W Input Result : Type}.

Local Abbreviation State := (State W Input Result).
Local Abbreviation Externals := (Externals W Input Result).

Implicit Types (ext : Externals) (env : gmap string string) (s : State)
  (e : GoError).

Lemma main_unfold ext env s :
  main ext env s =
  match run ext env s with
  | (Some e, s') => (Panicked e, s')
  | (None, s') => (Returned, s')
  end.
Proof.
  unfold main, bind, ret. by destruct (run ext env s) as [[e|] s'].
Qed.

(** X1: [main] returns without a panic exactly when the pool was built,
    source and sink were resolved, and the event source, called on
    [context.Background()] with the sink invoker, returned nil. *)
Theorem main_returns_iff ext env s s' :
  main ext env s = (Returned, s') <->
  exists pool s1 source s2 snk s3,
    getInvoker ext env s = (inl pool, s1)
    /\ getEventSource ext env s1 = (inl source, s2)
    /\ getEventSink ext env s2 = (inl snk, s3)
    /\ source Background (as_Invoker (mkSinkInvoker pool snk))
         (record (EvSource Background) s3) = (None, s').
Proof.
  rewrite main_unfold, run_unfold. split.
  - intros H.
    destruct (getInvoker ext env s) as [[pool|e] s1]; [|done].
    destruct (getEventSource ext env s1) as [[source|e] s2] eqn:H2; [|done].
    destruct (getEventSink ext env s2) as [[snk|e] s3] eqn:H3; [|done].
    destruct (source Background _ _) as [[e|] s4] eqn:Hsrc; [done|].
    injection H as <-. by exists pool, s1, source, s2, snk, s3.
  - intros (pool & s1 & source & s2 & snk & s3 & -> & -> & -> & ->). done.
Qed.

(** X2: [main] panics with [e] exactly when [e] is the error of the first
    setup step that failed, or setup succeeded and [e] is the error the
    event source returned; the state is the one that step left. *)
Theorem main_panics_iff ext env s e s' :
  main ext env s = (Panicked e, s') <->
  getInvoker ext env s = (inr e, s')
  \/ (exists pool s1,
        getInvoker ext env s = (inl pool, s1)
        /\ getEventSource ext env s1 = (inr e, s'))
  \/ (exists pool s1 source s2,
        getInvoker ext env s = (inl pool, s1)
        /\ getEventSource ext env s1 = (inl source, s2)
        /\ getEventSink ext env s2 = (inr e, s'))
  \/ (exists pool s1 source s2 snk s3,
        getInvoker ext env s = (inl pool, s1)
        /\ getEventSource ext env s1 = (inl source, s2)
        /\ getEventSink ext env s2 = (inl snk, s3)
        /\ source Background (as_Invoker (mkSinkInvoker pool snk))
             (record (EvSource Background) s3) = (Some e, s')).
Proof.
  rewrite main_unfold, run_unfold. split.
  - intros H.
    destruct (getInvoker ext env s) as [[pool|e1] s1];
      [|injection H as <- <-; by left].
    destruct (getEventSource ext env s1) as [[source|e2] s2] eqn:H2;
      [|injection H as <- <-; right; left; by exists pool, s1].
    destruct (getEventSink ext env s2) as [[snk|e3] s3] eqn:H3;
      [|injection H as <- <-; right; right; left; by exists pool, s1, source, s2].
    destruct (source Background _ _) as [[e4|] s4] eqn:Hsrc; [|done].
    injection H as <- <-. right; right; right.
    by exists pool, s1, source, s2, snk, s3.
  - intros [H|[H|[H|H]]].
    + by rewrite H.
    + destruct H as (pool & s1 & -> & ->). done.
    + destruct H as (pool & s1 & source & s2 & -> & -> & ->). done.
    + destruct H as (pool & s1 & source & s2 & snk & s3 & -> & -> & -> & ->). done.
Qed.

(** X3: when [executil.ParseCmd] rejects the command line, [getInvoker]
    returns its error whatever the numeric variables hold; the pool
    constructor is not called, and [run] ends there: no plugin is opened
    and the source is not called. *)
Theorem parse_failure_builds_no_pool ext env s e w1 :
  ParseCmd ext (Getenv env "FUNCTION_COMMAND") (world s) = (inr e, w1) ->
  let s1 := mkState w1 (journal s ++ [EvParseCmd (Getenv env "FUNCTION_COMMAND")]) in
  getInvoker ext env s = (inr e, s1)
  /\ run ext env s = (Some e, s1)
  /\ main ext env s = (Panicked e, s1).
Proof.
  intros Hcmd s1.
  assert (H : getInvoker ext env s = (inr e, s1)).
  { rewrite getInvoker_unfold. cbv zeta. by rewrite Hcmd. }
  split; [exact H|].
  assert (Hrun : run ext env s = (Some e, s1)) by (by rewrite run_unfold, H).
  split; [exact Hrun|]. by rewrite main_unfold, Hrun.
Qed.

(** X4: [getInvoker] has no required-variable check of its own.  With
    [FUNCTION_COMMAND] not set, [executil.ParseCmd] is called on the
    empty string and decides: its error is returned, or the command it
    gives goes into the configuration of the pool. *)
Theorem absent_command_is_parsed ext env s :
  env !! "FUNCTION_COMMAND" = None ->
  (forall e w1, ParseCmd ext "" (world s) = (inr e, w1) ->
     getInvoker ext env s = (inr e, mkState w1 (journal s ++ [EvParseCmd ""])))
  /\ (forall cmd w1 r w2,
        ParseCmd ext "" (world s) = (inl cmd, w1) ->
        NewInvokerPool ext (poolConfig env cmd) w1 = (r, w2) ->
        getInvoker ext env s =
          (r, mkState w2 (journal s ++
                [EvParseCmd ""; EvNewInvokerPool (poolConfig env cmd)]))).
Proof.
  intros Habs. split.
  - intros e w1 Hcmd. rewrite getInvoker_unfold. cbv zeta.
    by rewrite (Getenv_None _ _ Habs), Hcmd.
  - intros cmd w1 r w2 Hcmd Hpool. rewrite getInvoker_unfold. cbv zeta.
    by rewrite (Getenv_None _ _ Habs), Hcmd, Hpool.
Qed.

(** X5: the required variables of the source are checked after the pool
    is built.  With [SOURCE_PLUGIN_PATH] empty or not set and a pool that
    builds, [run] returns the required-variable error in the state pool
    construction left: the pool exists, and no module was opened. *)
Theorem pool_is_built_before_source_check ext env s pool s1 :
  Getenv env "SOURCE_PLUGIN_PATH" = "" ->
  getInvoker ext env s = (inl pool, s1) ->
  run ext env s =
    (Some (errors_New "SOURCE_PLUGIN_PATH is a required environment variable"), s1)
  /\ exists cmd,
       journal s1 = journal s ++ [EvParseCmd (Getenv env "FUNCTION_COMMAND");
                                  EvNewInvokerPool (poolConfig env cmd)].
Proof.
  intros Hpath H1. split.
  - rewrite run_unfold, H1, getEventSource_unfold. cbv zeta. by rewrite Hpath.
  - rewrite getInvoker_unfold in H1. cbv zeta in H1.
    destruct (ParseCmd ext _ (world s)) as [[cmd|e] w1]; [|done].
    destruct (NewInvokerPool ext _ w1) as [r w2].
    injection H1 as _ <-. by exists cmd.
Qed.

End Main.

(** ** The command and the durations of the pool configuration *)

Section PoolConfig.

Implicit Types (env : gmap string string) (cmd : Cmd).

(** X6: the command of the invoker factory is the parsed command with its
    environment replaced by the whole environment of the runner: path and
    arguments are kept, whatever [Env] the parser had set is dropped, and
    [Env] has one entry [key=value] for each variable and no other. *)
Theorem child_inherits_environment env cmd :
  exists c,
    Factory (poolConfig env cmd) = NewCmdInvokerFactory c
    /\ Path c = Path cmd
    /\ Args c = Args cmd
    /\ length (Env c) = size env
    /\ (forall key v, env !! key = Some v -> (key +:+ "=" +:+ v) ∈ Env c)
    /\ (forall entry, entry ∈ Env c ->
        exists key v, env !! key = Some v /\ entry = key +:+ "=" +:+ v).
Proof.
  exists (set_Env cmd (Environ env)).
  split; [reflexivity|]. split; [reflexivity|]. split; [reflexivity|].
  simpl. unfold Environ. split; [|split].
  - by rewrite length_fmap, length_map_to_list.
  - intros key v Hkv. apply list_elem_of_fmap. exists (key, v).
    split; [done|]. by apply elem_of_map_to_list.
  - intros entry (kv & -> & Hin)%list_elem_of_fmap. destruct kv as [key v].
    exists key, v. split; [by apply elem_of_map_to_list|done].
Qed.

Lemma millis_range n : minInt <= millis n <= maxInt.
Proof.
  unfold millis, wrap64, minInt, maxInt, intSize.
  pose proof (Z.mod_pos_bound (n * Millisecond + 2 ^ 63) (2 ^ 64)). lia.
Qed.

Lemma millis_congruent n : (millis n - n * Millisecond) mod 2 ^ 64 = 0.
Proof.
  unfold millis, wrap64.
  replace ((n * Millisecond + 2 ^ 63) mod 2 ^ 64 - 2 ^ 63 - n * Millisecond)
    with ((n * Millisecond + 2 ^ 63) mod 2 ^ 64 - (n * Millisecond + 2 ^ 63)) by lia.
  rewrite Zminus_mod, Zmod_mod, <- Zminus_mod, Z.sub_diag. reflexivity.
Qed.

(** X7: a duration is the parsed number of milliseconds times
    [time.Millisecond] in [int64] arithmetic.  It is exact for every value
    between -9223372036854 and 9223372036854; beyond, nothing is checked
    and the product wraps around, so that it always lies in the range of
    [int64] and agrees with the true product modulo [2^64]. *)
Theorem durations_are_int64_products env cmd :
  (forall i, Atoi (Getenv env "MAX_WAIT_MILLIS") = Some i ->
     (-9223372036854 <= i <= 9223372036854 ->
      MaxWaitDuration (poolConfig env cmd) = i * Millisecond)
     /\ (MaxWaitDuration (poolConfig env cmd) - i * Millisecond) mod 2 ^ 64 = 0)
  /\ (forall i, Atoi (Getenv env "MAX_EXEC_MILLIS") = Some i ->
     (-9223372036854 <= i <= 9223372036854 ->
      MaxRunnableTime (poolConfig env cmd) = i * Millisecond)
     /\ (MaxRunnableTime (poolConfig env cmd) - i * Millisecond) mod 2 ^ 64 = 0)
  /\ minInt <= MaxWaitDuration (poolConfig env cmd) <= maxInt
  /\ minInt <= MaxRunnableTime (poolConfig env cmd) <= maxInt.
Proof.
  destruct (poolConfig_fields env cmd) as (_ & Hw & Hx & _).
  rewrite Hw, Hx. split; [|split; [|split]].
  - intros i Hi. rewrite (override_parsed _ _ _ Hi). split.
    + intros Hr. apply millis_exact.
      unfold minInt, maxInt, intSize, Millisecond. lia.
    + apply millis_congruent.
  - intros i Hi. rewrite (override_parsed _ _ _ Hi). split.
    + intros Hr. apply millis_exact.
      unfold minInt, maxInt, intSize, Millisecond. lia.
    + apply millis_congruent.
  - apply millis_range.
  - apply millis_range.
Qed.

End PoolConfig.

(** ** Plugin resolution, step by step *)

Section Resolution.

Context {W Input Result : Type}.

Local Abbreviation State := (State W Input Result).
Local Abbreviation Externals := (Externals W Input Result).

Implicit Types (ext : Externals) (env : gmap string string) (s : State)
  (e : GoError).

(** X8: [getEventSource] checks its two variables at different moments.
    Without a path it fails at once, touching nothing, whatever the symbol
    name is.  With a path and without a symbol name it fails after the
    module has been opened: the world is the one [plugin.Open] left. *)
Theorem source_symbol_is_checked_after_open ext env s :
  (Getenv env "SOURCE_PLUGIN_PATH" = "" ->
   getEventSource ext env s =
     (inr (errors_New "SOURCE_PLUGIN_PATH is a required environment variable"), s))
  /\ (forall p w1,
        Getenv env "SOURCE_PLUGIN_PATH" <> "" ->
        Getenv env "SOURCE_PLUGIN_SYMBOL" = "" ->
        plugin_Open ext (Getenv env "SOURCE_PLUGIN_PATH") (world s) = (inl p, w1) ->
        getEventSource ext env s =
          (inr (errors_New "SOURCE_PLUGIN_SYMBOL is a required environment variable"),
           mkState w1 (journal s ++ [EvOpen (Getenv env "SOURCE_PLUGIN_PATH")]))).
Proof.
  split.
  - intros Hpath. rewrite getEventSource_unfold. cbv zeta. by rewrite Hpath.
  - intros p w1 Hpath%String.eqb_neq Hsym Hopen.
    rewrite getEventSource_unfold. cbv zeta. by rewrite Hpath, Hopen, Hsym.
Qed.

(** X9: an error of the loader is returned as it is, for the source and
    for the sink: the error of [plugin.Open] without any lookup, and the
    error of [Lookup] (a symbol the module does not have) after the one
    lookup. *)
Theorem loader_errors_pass_through ext env s :
  (forall e w1,
     Getenv env "SOURCE_PLUGIN_PATH" <> "" ->
     plugin_Open ext (Getenv env "SOURCE_PLUGIN_PATH") (world s) = (inr e, w1) ->
     getEventSource ext env s =
       (inr e, mkState w1 (journal s ++ [EvOpen (Getenv env "SOURCE_PLUGIN_PATH")])))
  /\ (forall p w1 e w2,
        Getenv env "SOURCE_PLUGIN_PATH" <> "" ->
        Getenv env "SOURCE_PLUGIN_SYMBOL" <> "" ->
        plugin_Open ext (Getenv env "SOURCE_PLUGIN_PATH") (world s) = (inl p, w1) ->
        plugin_Lookup ext p (Getenv env "SOURCE_PLUGIN_SYMBOL") w1 = (inr e, w2) ->
        getEventSource ext env s =
          (inr e, mkState w2 (journal s ++
             [EvOpen (Getenv env "SOURCE_PLUGIN_PATH");
              EvLookup p (Getenv env "SOURCE_PLUGIN_SYMBOL")])))
  /\ (forall e w1,
        Getenv env "SINK_PLUGIN_PATH" <> "" ->
        plugin_Open ext (Getenv env "SINK_PLUGIN_PATH") (world s) = (inr e, w1) ->
        getEventSink ext env s =
          (inr e, mkState w1 (journal s ++ [EvOpen (Getenv env "SINK_PLUGIN_PATH")])))
  /\ (forall p w1 e w2,
        Getenv env "SINK_PLUGIN_PATH" <> "" ->
        Getenv env "SINK_PLUGIN_SYMBOL" <> "" ->
        plugin_Open ext (Getenv env "SINK_PLUGIN_PATH") (world s) = (inl p, w1) ->
        plugin_Lookup ext p (Getenv env "SINK_PLUGIN_SYMBOL") w1 = (inr e, w2) ->
        getEventSink ext env s =
          (inr e, mkState w2 (journal s ++
             [EvOpen (Getenv env "SINK_PLUGIN_PATH");
              EvLookup p (Getenv env "SINK_PLUGIN_SYMBOL")]))).
Proof.
  split; [|split; [|split]].
  - intros e w1 Hpath%String.eqb_neq Hopen.
    rewrite getEventSource_unfold. cbv zeta. by rewrite Hpath, Hopen.
  - intros p w1 e w2 Hpath%String.eqb_neq Hsym%String.eqb_neq Hopen Hlook.
    rewrite getEventSource_unfold. cbv zeta. by rewrite Hpath, Hopen, Hsym, Hlook.
  - intros e w1 Hpath%String.eqb_neq Hopen.
    rewrite getEventSink_unfold. cbv zeta. by rewrite Hpath, Hopen.
  - intros p w1 e w2 Hpath%String.eqb_neq Hsym%String.eqb_neq Hopen Hlook.
    rewrite getEventSink_unfold. cbv zeta. by rewrite Hpath, Hopen, Hsym, Hlook.
Qed.

Lemma getEventSink_no_sink ext env s s' :
  getEventSink ext env s = (inl None, s') <->
  Getenv env "SINK_PLUGIN_PATH" = "" /\ s' = s.
Proof.
  rewrite getEventSink_unfold. cbv zeta.
  destruct (String.eqb (Getenv env "SINK_PLUGIN_PATH") "") eqn:Hpath.
  - apply String.eqb_eq in Hpath. split.
    + by intros [= <-].
    + by intros [_ ->].
  - apply String.eqb_neq in Hpath. split; [|by intros [? _]].
    intros H. exfalso.
    destruct (plugin_Open ext _ (world s)) as [[p|e] w1]; [|done].
    destruct (String.eqb (Getenv env "SINK_PLUGIN_SYMBOL") ""); [done|].
    destruct (plugin_Lookup ext p _ w1) as [[sym|e] w2]; [|done].
    by destruct (assert_sink sym).
Qed.

(** X10: [getEventSink] returns no sink and no error exactly when
    [SINK_PLUGIN_PATH] is empty or not set, and then it has done nothing;
    a sink symbol name alone never gives a sink and never an error. *)
Theorem no_sink_iff_no_path ext env s s' :
  getEventSink ext env s = (inl None, s') <->
  Getenv env "SINK_PLUGIN_PATH" = "" /\ s' = s.
Proof. apply getEventSink_no_sink. Qed.

(** X11: the foreign calls of a setup that succeeds, in their order: the
    command is parsed, the pool is built from [poolConfig], the source
    module is opened and its symbol looked up, and, when a sink path is
    set, the sink module is opened and its symbol looked up.  Each module
    is opened by its own call, also when both paths are the same. *)
Theorem successful_setup_journal ext env s pool s1 source s2 snk s3 :
  getInvoker ext env s = (inl pool, s1) ->
  getEventSource ext env s1 = (inl source, s2) ->
  getEventSink ext env s2 = (inl snk, s3) ->
  exists cmd p,
    journal s2 = journal s ++
      [EvParseCmd (Getenv env "FUNCTION_COMMAND");
       EvNewInvokerPool (poolConfig env cmd);
       EvOpen (Getenv env "SOURCE_PLUGIN_PATH");
       EvLookup p (Getenv env "SOURCE_PLUGIN_SYMBOL")]
    /\ match snk with
       | None => Getenv env "SINK_PLUGIN_PATH" = "" /\ s3 = s2
       | Some _ =>
           Getenv env "SINK_PLUGIN_PATH" <> ""
           /\ exists p',
                journal s3 = journal s2 ++
                  [EvOpen (Getenv env "SINK_PLUGIN_PATH");
                   EvLookup p' (Getenv env "SINK_PLUGIN_SYMBOL")]
       end.
Proof.
  intros H1 H2 H3.
  rewrite getInvoker_unfold in H1. cbv zeta in H1.
  destruct (ParseCmd ext _ (world s)) as [[cmd|e] w1]; [|done].
  destruct (NewInvokerPool ext _ w1) as [r w2]. injection H1 as -> <-.
  rewrite getEventSource_unfold in H2. cbv zeta in H2.
  destruct (String.eqb (Getenv env "SOURCE_PLUGIN_PATH") ""); [done|].
  simpl in H2.
  destruct (plugin_Open ext _ w2) as [[p|e] w3]; [|done].
  destruct (String.eqb (Getenv env "SOURCE_PLUGIN_SYMBOL") ""); [done|].
  destruct (plugin_Lookup ext p _ w3) as [r' w4]. injection H2 as _ <-.
  exists cmd, p. split; [simpl; by rewrite <- app_assoc|].
  destruct snk as [f|].
  - rewrite getEventSink_unfold in H3. cbv zeta in H3.
    destruct (String.eqb (Getenv env "SINK_PLUGIN_PATH") "") eqn:Hpath; [done|].
    apply String.eqb_neq in Hpath. split; [done|].
    destruct (plugin_Open ext _ _) as [[p'|e] w5]; [|done].
    destruct (String.eqb (Getenv env "SINK_PLUGIN_SYMBOL") ""); [done|].
    destruct (plugin_Lookup ext p' _ w5) as [r'' w6]. injection H3 as _ <-.
    by exists p'.
  - by apply getEventSink_no_sink in H3.
Qed.

End Resolution.

(** ** The sink invoker as a decorator *)

Section Decorator.

Context {W Input Result : Type}.

Local Abbreviation State := (State W Input Result).
Local Abbreviation sinkInvoker := (sinkInvoker W Input Result).

Implicit Types (si : sinkInvoker) (ctx : Context) (input : ptr Input)
  (s : State).

Lemma invoke_calls_app (j1 j2 : list (Event Input Result)) :
  invoke_calls (j1 ++ j2) = (invoke_calls j1 + invoke_calls j2)%nat.
Proof. unfold invoke_calls. by rewrite filter_app, length_app. Qed.

(** One call of [Invoke] in numbers. *)
Lemma Invoke_counts si ctx input s :
  (sinkInvoker_Invoke si ctx input s).1.1
    = (Invoke (invoker si) ctx input (world s)).1.1
  /\ invoke_calls (journal (sinkInvoker_Invoke si ctx input s).2)
     = S (invoke_calls (journal s))
  /\ sink_calls (journal (sinkInvoker_Invoke si ctx input s).2)
     = (sink_calls (journal s) +
        match (Invoke (invoker si) ctx input (world s)).1.2, sink si with
        | None, Some _ => 1
        | _, _ => 0
        end)%nat
  /\ ((sinkInvoker_Invoke si ctx input s).1.2 = None ->
      (Invoke (invoker si) ctx input (world s)).1.2 = None)
  /\ ((Invoke (invoker si) ctx input (world s)).1.2 <> None ->
      (sinkInvoker_Invoke si ctx input s).1.2
        = (Invoke (invoker si) ctx input (world s)).1.2).
Proof.
  rewrite Invoke_unfold.
  destruct (Invoke (invoker si) ctx input (world s)) as [[result [e|]] w1]; simpl.
  - rewrite invoke_calls_app, sink_calls_app.
    change (invoke_calls [EvInvoke ctx input]) with 1%nat.
    change (sink_calls [EvInvoke ctx input]) with 0%nat.
    repeat split; try done; lia.
  - destruct (sink si) as [f|]; simpl.
    + destruct (f ctx result w1) as [newErr w2]; simpl.
      rewrite invoke_calls_app, sink_calls_app.
      change (invoke_calls [EvInvoke ctx input; EvSink ctx result]) with 1%nat.
      change (sink_calls [EvInvoke ctx input; EvSink ctx result]) with 1%nat.
      repeat split; try done; lia.
    + rewrite invoke_calls_app, sink_calls_app.
      change (invoke_calls [EvInvoke ctx input]) with 1%nat.
      change (sink_calls [EvInvoke ctx input]) with 0%nat.
      repeat split; try done; lia.
Qed.

(** X12: in every case [Invoke] returns the result of the inner invoker;
    it calls the inner invoker once, and the sink once exactly when the
    inner error is nil and a sink is set.  It never turns a failure into a
    success: a non-nil inner error comes back as it is, and a nil error
    comes back only if the inner error was nil. *)
Theorem Invoke_never_hides_a_failure si ctx input s :
  (sinkInvoker_Invoke si ctx input s).1.1
    = (Invoke (invoker si) ctx input (world s)).1.1
  /\ invoke_calls (journal (sinkInvoker_Invoke si ctx input s).2)
     = S (invoke_calls (journal s))
  /\ sink_calls (journal (sinkInvoker_Invoke si ctx input s).2)
     = (sink_calls (journal s) +
        match (Invoke (invoker si) ctx input (world s)).1.2, sink si with
        | None, Some _ => 1
        | _, _ => 0
        end)%nat
  /\ ((sinkInvoker_Invoke si ctx input s).1.2 = None ->
      (Invoke (invoker si) ctx input (world s)).1.2 = None)
  /\ ((Invoke (invoker si) ctx input (world s)).1.2 <> None ->
      (sinkInvoker_Invoke si ctx input s).1.2
        = (Invoke (invoker si) ctx input (world s)).1.2).
Proof. apply Invoke_counts. Qed.

(** X13: a caller that sends a list of inputs through the sink invoker
    gets one pair per input; the inner invoker is called once per input;
    the sink is called at most once per input, at least once for every
    pair that came back with a nil error when a sink is set, and not at
    all when none is set. *)
Theorem invoke_all_counts si ctx (inputs : list (ptr Input)) s :
  let r := invoke_all (as_Invoker si) ctx inputs s in
  length r.1 = length inputs
  /\ invoke_calls (journal r.2) = (invoke_calls (journal s) + length inputs)%nat
  /\ (sink_calls (journal r.2) <= sink_calls (journal s) + length inputs)%nat
  /\ (sink si = None -> sink_calls (journal r.2) = sink_calls (journal s))
  /\ (sink si <> None ->
      (sink_calls (journal s) + successes r.1 <= sink_calls (journal r.2))%nat).
Proof.
  revert s. induction inputs as [|input rest IH]; intros s; cbv zeta.
  - simpl. repeat split; try done; unfold successes; simpl; lia.
  - cbn [invoke_all]. change (Invoke (as_Invoker si)) with (sinkInvoker_Invoke si).
    destruct (Invoke_counts si ctx input s) as (_ & Hinv & Hsink & Hnil & _).
    destruct (sinkInvoker_Invoke si ctx input s) as [out s1] eqn:Hout.
    specialize (IH s1). cbv zeta in IH.
    destruct (invoke_all (as_Invoker si) ctx rest s1) as [outs s2].
    simpl in *. destruct IH as (Hlen & Hi & Hle & Hnone & Hsome).
    split; [by rewrite Hlen|]. split; [lia|].
    split; [destruct (Invoke _ _ _ _).1.2, (sink si); lia|].
    split.
    + intros Hs. rewrite Hs in Hsink. rewrite (Hnone Hs).
      destruct (Invoke _ _ _ _).1.2; lia.
    + intros Hs. specialize (Hsome Hs). unfold successes in *.
      rewrite filter_cons. destruct out as [result err]. simpl in *.
      destruct (sink si) as [f|]; [|done].
      destruct err as [e|].
      * rewrite bool_decide_eq_false_2 by done. simpl.
        assert (sink_calls (journal s) <= sink_calls (journal s1))%nat
          by (rewrite Hsink; lia).
        eapply Nat.le_trans; [|exact Hsome]. by apply Nat.add_le_mono_r.
      * rewrite bool_decide_eq_true_2 by done. rewrite (Hnil eq_refl) in Hsink.
        simpl. eapply Nat.le_trans; [|exact Hsome].
        rewrite Nat.add_succ_r, <- Nat.add_succ_l. apply Nat.add_le_mono_r.
        rewrite Hsink. simpl. lia.
Qed.

End Decorator.

(** ** A sink invoker around a sink invoker *)

Section Nesting.

Context {W Input Result : Type}.

Local Abbreviation Inner := (State W Input Result).
Local Abbreviation Outer := (State Inner Input Result).

(** X14: the sink invoker is itself an invoker and can be wrapped again.
    The outer sink then sees a result only when the inner invoker and the
    inner sink both returned nil: an error of the inner sink comes back
    with the result and the outer sink is not called; otherwise the outer
    sink is called after the inner one, on the same context and result. *)
Theorem outer_sink_waits_for_inner_sink
    (si : sinkInvoker W Input Result) (snk : eventSink W Result)
    (audit : eventSink Inner Result) ctx input (t : Outer) result w1 :
  sink si = Some snk ->
  Invoke (invoker si) ctx input (world (world t)) = ((result, None), w1) ->
  let outer := mkSinkInvoker (as_Invoker si) (Some audit) in
  let inner_journal :=
    journal (world t) ++ [EvInvoke ctx input; EvSink ctx result] in
  (forall e w2, snk ctx result w1 = (Some e, w2) ->
     sinkInvoker_Invoke outer ctx input t =
       ((result, Some e),
        mkState (mkState w2 inner_journal) (journal t ++ [EvInvoke ctx input])))
  /\ (forall w2 err s3, snk ctx result w1 = (None, w2) ->
        audit ctx result (mkState w2 inner_journal) = (err, s3) ->
        sinkInvoker_Invoke outer ctx input t =
          ((result, err),
           mkState s3 (journal t ++ [EvInvoke ctx input; EvSink ctx result]))).
Proof.
  intros Hsink Hinv outer inner_journal. subst outer inner_journal. split.
  - intros e w2 Hsnk. rewrite Invoke_unfold. cbn [invoker sink as_Invoker Invoke].
    by rewrite Invoke_unfold, Hinv, Hsink, Hsnk.
  - intros w2 err s3 Hsnk Haudit. rewrite Invoke_unfold.
    cbn [invoker sink as_Invoker Invoke].
    by rewrite Invoke_unfold, Hinv, Hsink, Hsnk, Haudit.
Qed.

End Nesting.

(** * The further properties on the concrete installation *)

Section MoreInstances.

Import Sample.

(** With the source alone and a function that runs, [main] returns. *)
Lemma main_returns_iff_witness :
  main ext env_source start = (Returned, (run ext env_source start).2)
  /\ world (run ext env_source start).2 = ["pool"; "open ./src.so"; "run event"].
Proof.
  split; [|vm_compute; reflexivity].
  apply (proj2 (main_returns_iff ext env_source start (run ext env_source start).2)).
  exists pool,
    (mkState ["pool"] [EvParseCmd "cat"; EvNewInvokerPool (poolConfig env_source cat)]),
    one_event,
    (mkState ["pool"; "open ./src.so"]
       [EvParseCmd "cat"; EvNewInvokerPool (poolConfig env_source cat);
        EvOpen "./src.so"; EvLookup (mkPlugin "./src.so") "Source"]),
    None,
    (mkState ["pool"; "open ./src.so"]
       [EvParseCmd "cat"; EvNewInvokerPool (poolConfig env_source cat);
        EvOpen "./src.so"; EvLookup (mkPlugin "./src.so") "Source"]).
  split; [vm_compute; reflexivity|]. split; [vm_compute; reflexivity|].
  split; [vm_compute; reflexivity|]. vm_compute; reflexivity.
Defined.

(** With the full disk behind the sink, the source returns the error of
    the sink and [main] panics with it. *)
Lemma main_panics_iff_witness :
  main ext env_sink start
    = (Panicked (errorString "disk full"), (run ext env_sink start).2).
Proof.
  apply (proj2 (main_panics_iff ext env_sink start (errorString "disk full")
                  (run ext env_sink start).2)).
  right; right; right.
  exists pool, after_pool, one_event, after_source, (Some full_disk), after_sink.
  split; [vm_compute; reflexivity|]. split; [vm_compute; reflexivity|].
  split; [vm_compute; reflexivity|]. vm_compute; reflexivity.
Defined.

(** Without any variable the parser refuses the empty command, also with
    a pool size set. *)
Lemma parse_failure_builds_no_pool_witness :
  ParseCmd ext (Getenv (<["MAX_FUNCTION_COUNT" := "4"]> env_empty) "FUNCTION_COMMAND")
    (world start) = (inr (errorString "empty command"), [])
  /\ getInvoker ext (<["MAX_FUNCTION_COUNT" := "4"]> env_empty) start
     = (inr (errorString "empty command"), mkState [] [EvParseCmd ""])
  /\ main ext (<["MAX_FUNCTION_COUNT" := "4"]> env_empty) start
     = (Panicked (errorString "empty command"), mkState [] [EvParseCmd ""]).
Proof.
  assert (H : ParseCmd ext
                (Getenv (<["MAX_FUNCTION_COUNT" := "4"]> env_empty) "FUNCTION_COMMAND")
                (world start) = (inr (errorString "empty command"), []))
    by (vm_compute; reflexivity).
  destruct (parse_failure_builds_no_pool ext _ start _ _ H) as (H1 & _ & H3).
  split; [exact H|]. split; [exact H1|exact H3].
Defined.

Lemma absent_command_is_parsed_witness :
  env_empty !! "FUNCTION_COMMAND" = None
  /\ ParseCmd ext "" (world start) = (inr (errorString "empty command"), [])
  /\ getInvoker ext env_empty start
     = (inr (errorString "empty command"), mkState [] [EvParseCmd ""]).
Proof.
  assert (H0 : env_empty !! "FUNCTION_COMMAND" = None) by (vm_compute; reflexivity).
  assert (H1 : ParseCmd ext "" (world start) = (inr (errorString "empty command"), []))
    by (vm_compute; reflexivity).
  split; [exact H0|]. split; [exact H1|].
  exact (proj1 (absent_command_is_parsed ext env_empty start H0) _ _ H1).
Defined.

(** A command and nothing else: the pool is built, then [run] fails on
    the missing source path. *)
Lemma pool_is_built_before_source_check_witness :
  Getenv (<["FUNCTION_COMMAND" := "cat"]> env_empty) "SOURCE_PLUGIN_PATH" = ""
  /\ getInvoker ext (<["FUNCTION_COMMAND" := "cat"]> env_empty) start
     = (inl pool,
        mkState ["pool"]
          [EvParseCmd "cat";
           EvNewInvokerPool (poolConfig (<["FUNCTION_COMMAND" := "cat"]> env_empty) cat)])
  /\ run ext (<["FUNCTION_COMMAND" := "cat"]> env_empty) start
     = (Some (errors_New "SOURCE_PLUGIN_PATH is a required environment variable"),
        mkState ["pool"]
          [EvParseCmd "cat";
           EvNewInvokerPool (poolConfig (<["FUNCTION_COMMAND" := "cat"]> env_empty) cat)]).
Proof.
  assert (H0 : Getenv (<["FUNCTION_COMMAND" := "cat"]> env_empty) "SOURCE_PLUGIN_PATH" = "")
    by (vm_compute; reflexivity).
  assert (H1 : getInvoker ext (<["FUNCTION_COMMAND" := "cat"]> env_empty) start
     = (inl pool,
        mkState ["pool"]
          [EvParseCmd "cat";
           EvNewInvokerPool (poolConfig (<["FUNCTION_COMMAND" := "cat"]> env_empty) cat)]))
    by (vm_compute; reflexivity).
  split; [exact H0|]. split; [exact H1|].
  exact (proj1 (pool_is_built_before_source_check ext _ start _ _ H0 H1)).
Defined.

(** The three variables of [env_source] reach the child. *)
Lemma child_inherits_environment_witness :
  exists c,
    Factory (poolConfig env_source (mkCmd "cat" ["-n"] ["STALE=1"]))
      = NewCmdInvokerFactory c
    /\ Path c = "cat" /\ Args c = ["-n"] /\ length (Env c) = 3%nat
    /\ "FUNCTION_COMMAND=cat" ∈ Env c
    /\ "STALE=1" ∉ Env c.
Proof.
  destruct (child_inherits_environment env_source (mkCmd "cat" ["-n"] ["STALE=1"]))
    as (c & Hc & Hpath & Hargs & Hlen & Hin & Hout).
  exists c. split; [exact Hc|]. split; [exact Hpath|]. split; [exact Hargs|].
  split; [rewrite Hlen; vm_compute; reflexivity|].
  split.
  - apply (Hin "FUNCTION_COMMAND" "cat"). vm_compute; reflexivity.
  - intros (key & v & Hkv & Heq)%Hout.
    injection Hc as <-. vm_compute in Hout.
    clear -Heq Hkv. unfold env_source in Hkv.
    destruct (decide (key = "FUNCTION_COMMAND")) as [->|N1].
    { rewrite lookup_insert_eq in Hkv. injection Hkv as <-. discriminate. }
    rewrite lookup_insert_ne in Hkv by done.
    destruct (decide (key = "SOURCE_PLUGIN_PATH")) as [->|N2].
    { rewrite lookup_insert_eq in Hkv. injection Hkv as <-. discriminate. }
    rewrite lookup_insert_ne in Hkv by done.
    destruct (decide (key = "SOURCE_PLUGIN_SYMBOL")) as [->|N3].
    { rewrite lookup_insert_eq in Hkv. injection Hkv as <-. discriminate. }
    rewrite lookup_insert_ne in Hkv by done. by rewrite lookup_empty in Hkv.
Defined.

(** Sixty seconds are exact; 9223372036855 ms wrap around to a negative
    duration. *)
Lemma durations_are_int64_products_witness :
  Atoi (Getenv env_overflow "MAX_EXEC_MILLIS") = Some 60000
  /\ MaxRunnableTime (poolConfig env_overflow cat) = 60000 * Millisecond
  /\ Atoi (Getenv env_overflow "MAX_WAIT_MILLIS") = Some 9223372036855
  /\ (MaxWaitDuration (poolConfig env_overflow cat)
      - 9223372036855 * Millisecond) mod 2 ^ 64 = 0
  /\ MaxWaitDuration (poolConfig env_overflow cat) = -9223372036854551616.
Proof.
  assert (H1 : Atoi (Getenv env_overflow "MAX_EXEC_MILLIS") = Some 60000)
    by (vm_compute; reflexivity).
  assert (H2 : Atoi (Getenv env_overflow "MAX_WAIT_MILLIS") = Some 9223372036855)
    by (vm_compute; reflexivity).
  destruct (durations_are_int64_products env_overflow cat) as (Hw & Hx & _).
  split; [exact H1|]. split; [apply (proj1 (Hx 60000 H1)); lia|].
  split; [exact H2|]. split; [exact (proj2 (Hw _ H2))|].
  vm_compute; reflexivity.
Defined.

(** No source path: nothing is touched.  A path without a symbol name:
    the module has been opened when the error comes. *)
Lemma source_symbol_is_checked_after_open_witness :
  getEventSource ext (<["SOURCE_PLUGIN_SYMBOL" := "Source"]> env_empty) start
    = (inr (errors_New "SOURCE_PLUGIN_PATH is a required environment variable"), start)
  /\ getEventSource ext (<["SOURCE_PLUGIN_PATH" := "./src.so"]> env_empty) start
     = (inr (errors_New "SOURCE_PLUGIN_SYMBOL is a required environment variable"),
        mkState ["open ./src.so"] [EvOpen "./src.so"]).
Proof.
  split.
  - apply (proj1 (source_symbol_is_checked_after_open ext
                    (<["SOURCE_PLUGIN_SYMBOL" := "Source"]> env_empty) start)).
    vm_compute; reflexivity.
  - etrans.
    + apply (proj2 (source_symbol_is_checked_after_open ext
                      (<["SOURCE_PLUGIN_PATH" := "./src.so"]> env_empty) start)
               (mkPlugin "./src.so") ["open ./src.so"]).
      * vm_compute; discriminate.
      * vm_compute; reflexivity.
      * vm_compute; reflexivity.
    + vm_compute; reflexivity.
Defined.

(** A module that is missing, and a symbol the module does not have. *)
Lemma loader_errors_pass_through_witness :
  getEventSource ext env_missing_source start
    = (inr (errorString "plugin.Open: realpath failed"),
       mkState [] [EvOpen "./missing.so"])
  /\ getEventSink ext (<["SINK_PLUGIN_SYMBOL" := "Nope"]> env_sink) start
     = (inr (errorString "plugin: symbol Nope not found"),
        mkState ["open ./sink.so"]
          [EvOpen "./sink.so"; EvLookup (mkPlugin "./sink.so") "Nope"]).
Proof.
  split.
  - etrans.
    + apply (proj1 (loader_errors_pass_through ext env_missing_source start)
               (errorString "plugin.Open: realpath failed") []).
      * vm_compute; discriminate.
      * vm_compute; reflexivity.
    + vm_compute; reflexivity.
  - etrans.
    + apply (proj2 (proj2 (proj2 (loader_errors_pass_through ext
                      (<["SINK_PLUGIN_SYMBOL" := "Nope"]> env_sink) start)))
               (mkPlugin "./sink.so") ["open ./sink.so"]
               (errorString "plugin: symbol Nope not found") ["open ./sink.so"]).
      * vm_compute; discriminate.
      * vm_compute; discriminate.
      * vm_compute; reflexivity.
      * vm_compute; reflexivity.
    + vm_compute; reflexivity.
Defined.

(** A sink symbol name without a sink path: no sink, no error. *)
Lemma no_sink_iff_no_path_witness :
  Getenv (<["SINK_PLUGIN_SYMBOL" := "Sink"]> env_source) "SINK_PLUGIN_PATH" = ""
  /\ getEventSink ext (<["SINK_PLUGIN_SYMBOL" := "Sink"]> env_source) start
     = (inl None, start).
Proof.
  assert (H : Getenv (<["SINK_PLUGIN_SYMBOL" := "Sink"]> env_source) "SINK_PLUGIN_PATH"
              = "") by (vm_compute; reflexivity).
  split; [exact H|].
  apply (proj2 (no_sink_iff_no_path ext _ start start)). by split.
Defined.

(** The six foreign calls of the setup with [env_sink]. *)
Lemma successful_setup_journal_witness :
  getInvoker ext env_sink start = (inl pool, after_pool)
  /\ getEventSource ext env_sink after_pool = (inl one_event, after_source)
  /\ getEventSink ext env_sink after_source = (inl (Some full_disk), after_sink)
  /\ exists cmd p p',
       journal after_sink =
         [EvParseCmd (Getenv env_sink "FUNCTION_COMMAND");
          EvNewInvokerPool (poolConfig env_sink cmd);
          EvOpen (Getenv env_sink "SOURCE_PLUGIN_PATH");
          EvLookup p (Getenv env_sink "SOURCE_PLUGIN_SYMBOL");
          EvOpen (Getenv env_sink "SINK_PLUGIN_PATH");
          EvLookup p' (Getenv env_sink "SINK_PLUGIN_SYMBOL")].
Proof.
  assert (H1 : getInvoker ext env_sink start = (inl pool, after_pool))
    by (vm_compute; reflexivity).
  assert (H2 : getEventSource ext env_sink after_pool = (inl one_event, after_source))
    by (vm_compute; reflexivity).
  assert (H3 : getEventSink ext env_sink after_source = (inl (Some full_disk), after_sink))
    by (vm_compute; reflexivity).
  split; [exact H1|]. split; [exact H2|]. split; [exact H3|].
  destruct (successful_setup_journal ext env_sink start _ _ _ _ _ _ H1 H2 H3)
    as (cmd & p & J2 & _ & p' & J3).
  exists cmd, p, p'. rewrite J3, J2. reflexivity.
Defined.

(** One event through the sink with the full disk: the result [ok] of the
    pool, one call of each. *)
Lemma Invoke_never_hides_a_failure_witness :
  (sinkInvoker_Invoke si_full_disk ctx (Some "event") start).1.1 = Some "ok"
  /\ invoke_calls (journal (sinkInvoker_Invoke si_full_disk ctx (Some "event") start).2)
     = 1%nat
  /\ sink_calls (journal (sinkInvoker_Invoke si_full_disk ctx (Some "event") start).2)
     = 1%nat
  /\ (sinkInvoker_Invoke si_full_disk ctx (Some "boom") start).1.2
     = Some (errorString "exit status 1").
Proof.
  destruct (Invoke_never_hides_a_failure si_full_disk ctx (Some "event") start)
    as (Hres & Hinv & Hsink & _).
  destruct (Invoke_never_hides_a_failure si_full_disk ctx (Some "boom") start)
    as (_ & _ & _ & _ & Herr).
  split; [rewrite Hres; reflexivity|]. split; [rewrite Hinv; reflexivity|].
  split; [rewrite Hsink; reflexivity|].
  rewrite Herr; [reflexivity|]. vm_compute; discriminate.
Defined.

(** Three inputs, the second of which fails: three calls of the pool and
    two publications. *)
Lemma invoke_all_counts_witness :
  length (invoke_all (as_Invoker si_publish) ctx
            [Some "a"; Some "boom"; Some "b"] start).1 = 3%nat
  /\ invoke_calls (journal (invoke_all (as_Invoker si_publish) ctx
                              [Some "a"; Some "boom"; Some "b"] start).2) = 3%nat
  /\ (2 <= sink_calls (journal (invoke_all (as_Invoker si_publish) ctx
                                   [Some "a"; Some "boom"; Some "b"] start).2) <= 3)%nat
  /\ sink_calls (journal (invoke_all (as_Invoker si_plain) ctx
                            [Some "a"; Some "boom"; Some "b"] start).2) = 0%nat.
Proof.
  destruct (invoke_all_counts si_publish ctx [Some "a"; Some "boom"; Some "b"] start)
    as (Hlen & Hinv & Hle & _ & Hge).
  destruct (invoke_all_counts si_plain ctx [Some "a"; Some "boom"; Some "b"] start)
    as (_ & _ & _ & Hnone & _).
  split; [exact Hlen|]. split; [exact Hinv|]. split; [split|].
  - assert (Hs : sink si_publish <> None) by discriminate.
    exact (Hge Hs).
  - exact Hle.
  - exact (Hnone eq_refl).
Defined.

(** Around the sink with the full disk, the audit is not reached; around
    the sink that publishes, it is. *)
Lemma outer_sink_waits_for_inner_sink_witness :
  sinkInvoker_Invoke si_nested_full_disk ctx (Some "event") outer_start =
    ((Some "ok", Some (errorString "disk full")),
     mkState (mkState ["run event"; "sink failed"]
                [EvInvoke ctx (Some "event"); EvSink ctx (Some "ok")])
       [EvInvoke ctx (Some "event")])
  /\ sinkInvoker_Invoke si_nested_publish ctx (Some "event") outer_start =
    ((Some "ok", None),
     mkState (mkState ["run event"; "published ok"; "audited"]
                [EvInvoke ctx (Some "event"); EvSink ctx (Some "ok")])
       [EvInvoke ctx (Some "event"); EvSink ctx (Some "ok")]).
Proof.
  split.
  - apply (proj1 (outer_sink_waits_for_inner_sink si_full_disk full_disk audit ctx
                    (Some "event") outer_start (Some "ok") ["run event"]
                    eq_refl eq_refl)
             (errorString "disk full") ["run event"; "sink failed"]).
    reflexivity.
  - apply (proj2 (outer_sink_waits_for_inner_sink si_publish publish audit ctx
                    (Some "event") outer_start (Some "ok") ["run event"]
                    eq_refl eq_refl)
             ["run event"; "published ok"] None
             (mkState ["run event"; "published ok"; "audited"]
                [EvInvoke ctx (Some "event"); EvSink ctx (Some "ok")])).
    + reflexivity.
    + reflexivity.
Defined.

End MoreInstances.
